(** * breathEx: the phase scheduler and session clock of [App.tsx]

    A shallow embedding of the timing core of the application component
    ([App.tsx]) together with the data declarations of [types.ts].

    Conventions of the embedding.
    - A JavaScript [number] that carries a time is a rational ([Q]); the
      arithmetic is exact, so rounding of IEEE doubles is not modelled.
      Division by zero, which JavaScript answers with an infinity or NaN,
      is [Qdiv]'s [0]; every statement that divides assumes, or exhibits,
      a non-zero divisor.
    - A phase index is a [nat]: the code only ever stores [0] or the
      result of [(i + 1) % length].
    - An optional field ([phases?], [defaultDuration?]) and a ref that may
      hold [undefined] are [option]s.
    - React state is one record, [State]; every [setX] of the component is
      a record update of the same name.  A handler or an effect is a
      function on [State].  Reading a property of [undefined] throws a
      [TypeError]; such a handler returns [None].
    - The animation-frame handle ([requestRef]) lives in the browser; the
      frames it delivers are the [Tick] events of [step]. *)

From Stdlib Require Import QArith Qminmax Lqa List String Bool Arith Lia.
From Stdlib Require Import ZArith Qround Ascii DecimalString.
Import ListNotations.
Open Scope Q_scope.

(** ** types.ts *)

Inductive PhaseType : Type :=
| Inhale
| Hold
| Exhale
| Sustain.

Inductive PresetType : Type :=
| breathing
| timer.

Inductive AppState : Type :=
| Idle
| Running
| Paused
| Completed.

Module BreathPhase.
Record t : Type := mk
  { label : string;
    duration : Q;          (* in seconds *)
    type : PhaseType }.
End BreathPhase.

Module Preset.
Record t : Type := mk
  { id : string;
    name : string;
    description : string;
    type : PresetType;
    phases : option (list BreathPhase.t);   (* for breathing exercises *)
    defaultDuration : option Q;             (* for timer exercises, in minutes *)
    benefits : list string;
    technique : list string }.
End Preset.

Definition PhaseType_eqb (a b : PhaseType) : bool :=
  match a, b with
  | Inhale, Inhale | Hold, Hold | Exhale, Exhale | Sustain, Sustain => true
  | _, _ => false
  end.

Definition AppState_eqb (a b : AppState) : bool :=
  match a, b with
  | Idle, Idle | Running, Running | Paused, Paused | Completed, Completed => true
  | _, _ => false
  end.

(** ** JavaScript primitives used by the component *)

(** [a % b] on non-negative integers: NaN (here [None]) when [b] is [0]. *)
Definition jsMod (a b : nat) : option nat :=
  match b with
  | O => None
  | S _ => Some (a mod b)%nat
  end.

(** [x || d] on an optional number: [undefined] and [0] are falsy. *)
Definition orDefault (x : option Q) (d : Q) : Q :=
  match x with
  | Some v => if Qeq_bool v 0 then d else v
  | None => d
  end.

(** ** App.tsx: the component's state *)

Record State : Type := mkState
  { activePreset : Preset.t;
    appState : AppState;
    currentPhaseIndex : nat;
    phaseTimeLeft : Q;
    totalSessionTime : Q;          (* time elapsed *)
    timerDuration : Q;             (* timer mode: seconds remaining *)
    previousTimeRef : option Q }.  (* milliseconds; [None] is undefined *)

Definition setActivePreset (p : Preset.t) (s : State) : State :=
  mkState p (appState s) (currentPhaseIndex s) (phaseTimeLeft s)
          (totalSessionTime s) (timerDuration s) (previousTimeRef s).

Definition setAppState (a : AppState) (s : State) : State :=
  mkState (activePreset s) a (currentPhaseIndex s) (phaseTimeLeft s)
          (totalSessionTime s) (timerDuration s) (previousTimeRef s).

Definition setCurrentPhaseIndex (i : nat) (s : State) : State :=
  mkState (activePreset s) (appState s) i (phaseTimeLeft s)
          (totalSessionTime s) (timerDuration s) (previousTimeRef s).

Definition setPhaseTimeLeft (x : Q) (s : State) : State :=
  mkState (activePreset s) (appState s) (currentPhaseIndex s) x
          (totalSessionTime s) (timerDuration s) (previousTimeRef s).

Definition setTotalSessionTime (x : Q) (s : State) : State :=
  mkState (activePreset s) (appState s) (currentPhaseIndex s) (phaseTimeLeft s)
          x (timerDuration s) (previousTimeRef s).

Definition setTimerDuration (x : Q) (s : State) : State :=
  mkState (activePreset s) (appState s) (currentPhaseIndex s) (phaseTimeLeft s)
          (totalSessionTime s) x (previousTimeRef s).

Definition setPreviousTimeRef (r : option Q) (s : State) : State :=
  mkState (activePreset s) (appState s) (currentPhaseIndex s) (phaseTimeLeft s)
          (totalSessionTime s) (timerDuration s) r.

(** The values the [useState] and [useRef] calls start from; [p0] stands
    for [PRESETS[0]] of [constants.ts]. *)
Definition initialState (p0 : Preset.t) : State :=
  {| activePreset := p0;
     appState := Idle;
     currentPhaseIndex := 0;
     phaseTimeLeft := 0;
     totalSessionTime := 0;
     timerDuration :=
       match Preset.defaultDuration p0 with
       | Some d => if Qeq_bool d 0 then 0 else d * 60
       | None => 0
       end;
     previousTimeRef := None |}.

(** ** App.tsx: handlers and effects *)

(** [initPreset]: initialize based on preset. *)
Definition initPreset (preset : Preset.t) (s : State) : option State :=
  let s := setActivePreset preset s in
  let s := setAppState Idle s in
  let s := setTotalSessionTime 0 s in
  match Preset.type preset, Preset.phases preset with
  | breathing, Some phases =>
      let s := setCurrentPhaseIndex 0 s in
      match nth_error phases 0 with
      | Some ph => Some (setPhaseTimeLeft (BreathPhase.duration ph) s)
      | None => None
      end
  | timer, _ =>
      Some (setTimerDuration (orDefault (Preset.defaultDuration preset) 10 * 60) s)
  | breathing, None => Some s
  end.

(** [animate]: the main loop, one animation frame at [time] milliseconds. *)
Definition animate (time : Q) (s : State) : State :=
  if negb (AppState_eqb (appState s) Running) then s
  else
    let s :=
      match previousTimeRef s with
      | Some previous =>
          let deltaTime := (time - previous) / 1000 in   (* seconds *)
          let s := setTotalSessionTime (totalSessionTime s + deltaTime) s in
          match Preset.type (activePreset s), Preset.phases (activePreset s) with
          | breathing, Some _ =>
              let newTime := phaseTimeLeft s - deltaTime in
              setPhaseTimeLeft newTime s
          | timer, _ =>
              let newTime := timerDuration s - deltaTime in
              if Qle_bool newTime 0
              then setTimerDuration 0 (setAppState Completed s)
              else setTimerDuration newTime s
          | breathing, None => s
          end
      | None => s
      end in
    setPreviousTimeRef (Some time) s.

(** The effect that handles phase switching for breathing. *)
Definition phaseSwitchEffect (s : State) : option State :=
  match Preset.type (activePreset s), Preset.phases (activePreset s), appState s with
  | breathing, Some phases, Running =>
      if Qle_bool (phaseTimeLeft s) 0.05 then
        match jsMod (currentPhaseIndex s + 1) (List.length phases) with
        | Some nextIndex =>
            match nth_error phases nextIndex with
            | Some ph =>
                Some (setPhaseTimeLeft (BreathPhase.duration ph)
                        (setCurrentPhaseIndex nextIndex s))
            | None => None
            end
        | None => None
        end
      else Some s
  | _, _, _ => Some s
  end.

(** The start/stop effect: while running it requests the next frame,
    otherwise it cancels the request and forgets the previous time. *)
Definition startStopEffect (s : State) : State :=
  if AppState_eqb (appState s) Running then s
  else setPreviousTimeRef None s.

Definition toggleTimer (s : State) : State :=
  if AppState_eqb (appState s) Running
  then setAppState Paused s
  else setAppState Running s.

Definition reset (s : State) : option State :=
  initPreset (activePreset s) s.

(** ** App.tsx: the visual state *)

Record Visual : Type := mkVisual
  { targetScale : Q;
    transition : string;
    visualLabel : string }.

Definition restingVisual (l : string) : Visual :=
  mkVisual 1 "transform 0.5s ease-out" l.

Definition isType (k : PhaseType) (ph : BreathPhase.t) : bool :=
  PhaseType_eqb (BreathPhase.type ph) k.

(** [getVisualState]: the visual scaling calculation for the visualizer.
    It is recomputed at every render.  The phase two steps back is read
    only when [prevPhaseIndex > 0], where it exists. *)
Definition getVisualState (s : State) : option Visual :=
  match Preset.phases (activePreset s) with
  | None => Some (restingVisual "Focus")
  | Some phases =>
      match nth_error phases (currentPhaseIndex s) with
      | None => None
      | Some phase =>
          let progress := 1 - phaseTimeLeft s / BreathPhase.duration phase in
          let prevPhaseIndex :=
            if Nat.eqb (currentPhaseIndex s) 0
            then (List.length phases - 1)%nat
            else (currentPhaseIndex s - 1)%nat in
          match nth_error phases prevPhaseIndex with
          | None => None
          | Some prevPhase =>
              let isPrevInhale := isType Inhale prevPhase in
              let scale :=
                match BreathPhase.type phase with
                | Inhale => 1 + progress * 0.8
                | Exhale => 1.8 - progress * 0.8
                | Hold =>
                    if isPrevInhale
                       || (isType Hold prevPhase
                           && Nat.ltb 0 prevPhaseIndex
                           && match nth_error phases (prevPhaseIndex - 1) with
                              | Some pp => isType Inhale pp
                              | None => false
                              end)
                    then 1.8
                    else 1
                | Sustain => 1
                end in
              Some (mkVisual scale "transform 0.1s linear" (BreathPhase.label phase))
          end
      end
  end.

(** What a render hands to the circle: the computed visual state while a
    breathing preset runs, the resting one otherwise. *)
Definition dynamicVisual (s : State) : option Visual :=
  match appState s, Preset.type (activePreset s) with
  | Running, breathing => getVisualState s
  | _, breathing => Some (restingVisual "Ready")
  | _, timer => Some (restingVisual "Focus")
  end.

(** ** The component as a transition system *)

Inductive Event : Type :=
| Tick (time : Q)             (* an animation frame *)
| Toggle                      (* the start / pause button *)
| Reset                       (* the reset button *)
| Select (preset : Preset.t)  (* the preset selector *)
| Render.                     (* a re-render that only re-runs the effects *)

Definition handle (e : Event) (s : State) : option State :=
  match e with
  | Tick time => Some (animate time s)
  | Toggle => Some (toggleTimer s)
  | Reset => reset s
  | Select preset => initPreset preset s
  | Render => Some s
  end.

(** The effects of one commit, in their order of declaration.  React
    renders with the state the handler left, [handle e s], runs the
    effects, and renders again with the state they left, [step e s]. *)
Definition effects (s : State) : option State :=
  option_map startStopEffect (phaseSwitchEffect s).

Definition step (e : Event) (s : State) : option State :=
  match handle e s with
  | Some s' => effects s'
  | None => None
  end.

Fixpoint run (es : list Event) (s : State) : option State :=
  match es with
  | [] => Some s
  | e :: es' =>
      match step e s with
      | Some s' => run es' s'
      | None => None
      end
  end.

(** ** Presets *)

Definition positive (x : Q) : bool := negb (Qle_bool x 0).

(** Modelled from the spec: the preset catalog ([constants.ts]) and its
    loader are not part of the sources.  The catalog supplies presets of
    the data model: a breathing preset comes with a non-empty sequence of
    phases, each of positive duration; a timer preset comes with a
    positive number of minutes.  [validPreset] is that contract; the
    handlers themselves are defined on every preset. *)
Definition validPreset (p : Preset.t) : bool :=
  match Preset.type p with
  | breathing =>
      match Preset.phases p with
      | Some (ph :: phs) =>
          forallb (fun x => positive (BreathPhase.duration x)) (ph :: phs)
      | _ => false
      end
  | timer =>
      match Preset.defaultDuration p with
      | Some d => positive d
      | None => false
      end
  end.

Definition phase (k : PhaseType) (l : string) (d : Q) : BreathPhase.t :=
  BreathPhase.mk l d k.

Definition breathingPreset (n : string) (phs : list BreathPhase.t) : Preset.t :=
  Preset.mk n n "" breathing (Some phs) None [] [].

Definition timerPreset (n : string) (minutes : option Q) : Preset.t :=
  Preset.mk n n "" timer None minutes [] [].

(** Box breathing: four phases of four seconds each. *)
Definition boxBreathing : Preset.t :=
  breathingPreset "box"
    [ phase Inhale "Inhale" 4; phase Hold "Hold" 4;
      phase Exhale "Exhale" 4; phase Hold "Hold" 4 ].

Definition inhaleExhale : Preset.t :=
  breathingPreset "calm" [ phase Inhale "Inhale" 4; phase Exhale "Exhale" 4 ].

(** An inhale followed by three holds. *)
Definition longHold : Preset.t :=
  breathingPreset "retention"
    [ phase Inhale "Inhale" 4; phase Hold "Hold" 4;
      phase Hold "Hold" 4; phase Hold "Hold" 4 ].

Definition oneMinute : Preset.t := timerPreset "focus" (Some 1).

(** ** Sessions

    The states a session passes through: from the initial render, by
    events the environment admits.  [admits] says which frames the
    browser may deliver in a state; a preset handed to the selector is
    one of the catalog's. *)

Definition validEvent (e : Event) : Prop :=
  match e with
  | Select preset => validPreset preset = true
  | _ => True
  end.

Inductive reachable (admits : Event -> State -> Prop) (p0 : Preset.t) : State -> Prop :=
| reach_init : reachable admits p0 (initialState p0)
| reach_step e s s' :
    reachable admits p0 s ->
    validEvent e ->
    admits e s ->
    step e s = Some s' ->
    reachable admits p0 s'.

(** Any frame at all. *)
Definition anyFrame (e : Event) (s : State) : Prop := True.

(** Frames whose timestamp is not earlier than the previous frame's. *)
Definition orderedFrame (e : Event) (s : State) : Prop :=
  match e, previousTimeRef s with
  | Tick time, Some previous => previous <= time
  | _, _ => True
  end.

(** The bounds on the session's progress while it runs or is paused. *)
Definition sessionBounds (s : State) : Prop :=
  match Preset.type (activePreset s) with
  | breathing =>
      exists phases ph,
        Preset.phases (activePreset s) = Some phases /\
        (currentPhaseIndex s < List.length phases)%nat /\
        nth_error phases (currentPhaseIndex s) = Some ph /\
        phaseTimeLeft s <= BreathPhase.duration ph + 0.05
  | timer =>
      exists d,
        Preset.defaultDuration (activePreset s) = Some d /\
        0 <= timerDuration s <= d * 60
  end.

Definition sessionInvariant (s : State) : Prop :=
  appState s = Running \/ appState s = Paused -> sessionBounds s.

(** ** The hold rule in the words of the specification

    The scale of a Hold phase is the exit scale of the nearest phase
    before it that is not a Hold: walk backwards through the consecutive
    Hold phases, from index 0 to the last phase; 1.8 when that phase is an
    Inhale, 1 otherwise, also when every phase is a Hold. *)

Definition cyclicPred (n i : nat) : nat :=
  match i with
  | O => (n - 1)%nat
  | S j => j
  end.

Fixpoint lookbackScale (phases : list BreathPhase.t) (i fuel : nat) : Q :=
  match fuel with
  | O => 1
  | S fuel' =>
      let j := cyclicPred (List.length phases) i in
      match nth_error phases j with
      | Some p =>
          match BreathPhase.type p with
          | Inhale => 1.8
          | Hold => lookbackScale phases j fuel'
          | _ => 1
          end
      | None => 1
      end
  end.

Definition holdScaleSpec (phases : list BreathPhase.t) (i : nat) : Q :=
  lookbackScale phases i (List.length phases).

(** What every step keeps: the active preset is one of the catalog's, the
    phase index names a phase whose duration bounds [phaseTimeLeft], and
    the timer's remaining time lies between zero and its full duration. *)
Definition wellFormed (s : State) : Prop :=
  validPreset (activePreset s) = true /\
  match Preset.type (activePreset s) with
  | breathing =>
      exists phases ph,
        Preset.phases (activePreset s) = Some phases /\
        nth_error phases (currentPhaseIndex s) = Some ph /\
        phaseTimeLeft s <= BreathPhase.duration ph
  | timer =>
      exists d,
        Preset.defaultDuration (activePreset s) = Some d /\
        0 <= timerDuration s <= d * 60
  end.

(** ** App.tsx: what the component displays *)

(** [n.toString()] of a whole number. *)
Definition toString (z : Z) : string :=
  NilZero.string_of_int (Z.to_int z).

(** [s.padStart(2, '0')]. *)
Definition padStart2 (s : string) : string :=
  match String.length s with
  | 0%nat => "00"
  | 1%nat => String "0" s
  | _ => s
  end.

(** [formatTime]: helper to format time MM:SS.  The component calls it
    with a whole number of seconds, [Math.ceil(timerDuration)];
    [Math.floor(seconds / 60)] is the floor division and [%] the
    remainder that takes the sign of the dividend. *)
Definition formatTime (seconds : Z) : string :=
  let mins := (seconds / 60)%Z in
  let secs := Z.rem seconds 60 in
  (padStart2 (toString mins) ++ ":" ++ padStart2 (toString secs))%string.

(** The timer overlay: [formatTime(Math.ceil(timerDuration))]. *)
Definition timerDisplay (s : State) : string :=
  formatTime (Qceiling (timerDuration s)).

(** The count inside the circle while a breathing preset runs:
    [Math.max(0, Math.ceil(phaseTimeLeft))]. *)
Definition phaseCount (s : State) : Z :=
  Z.max 0 (Qceiling (phaseTimeLeft s)).

(** Reading a display of the shape [dd:dd] back as seconds. *)
Definition digitValue (c : ascii) : option Z :=
  let n := nat_of_ascii c in
  if Nat.leb 48 n && Nat.leb n 57 then Some (Z.of_nat (n - 48)) else None.

Definition readClock (s : string) : option Z :=
  match s with
  | String a (String b (String c (String d (String e EmptyString)))) =>
      match digitValue a, digitValue b, digitValue d, digitValue e with
      | Some m1, Some m0, Some s1, Some s0 =>
          if Ascii.eqb c ":" && Z.ltb (10 * s1 + s0) 60
          then Some ((10 * m1 + m0) * 60 + (10 * s1 + s0))%Z
          else None
      | _, _, _, _ => None
      end
  | _ => None
  end.

Definition readsBack (n : nat) : bool :=
  match readClock (formatTime (Z.of_nat n)) with
  | Some v => Z.eqb v (Z.of_nat n)
  | None => false
  end.

(** ** Runs of frames *)

(** Every phase of the preset lasts longer than the switch threshold. *)
Definition aboveThreshold (p : Preset.t) : bool :=
  match Preset.phases p with
  | Some phases =>
      forallb (fun x => negb (Qle_bool (BreathPhase.duration x) 0.05)) phases
  | None => true
  end.


(** * Properties *)

(** Closed goals about concrete sessions are settled by evaluation. *)
Ltac by_computation := vm_compute; reflexivity.

(** ** Basic facts *)

Lemma PhaseType_eqb_eq (a b : PhaseType) : PhaseType_eqb a b = true <-> a = b.
Proof. destruct a, b; simpl; split; congruence. Qed.

Lemma AppState_eqb_eq (a b : AppState) : AppState_eqb a b = true <-> a = b.
Proof. destruct a, b; simpl; split; congruence. Qed.

Lemma positive_spec (x : Q) : positive x = true <-> 0 < x.
Proof.
  unfold positive. rewrite negb_true_iff, <- not_true_iff_false, Qle_bool_iff.
  split; intro H; lra.
Qed.

Lemma positive_nonzero (x : Q) : positive x = true -> Qeq_bool x 0 = false.
Proof.
  intro H. apply positive_spec in H.
  apply not_true_iff_false. rewrite Qeq_bool_iff. lra.
Qed.

Lemma jsMod_some (a b : nat) :
  b <> 0%nat -> jsMod a b = Some (a mod b)%nat /\ (a mod b < b)%nat.
Proof.
  intro Hb. split.
  - destruct b; [contradiction | reflexivity].
  - apply Nat.mod_upper_bound; assumption.
Qed.

Lemma nth_error_in_range {A : Type} (l : list A) (i : nat) :
  (i < List.length l)%nat -> exists x, nth_error l i = Some x.
Proof.
  intro Hi. destruct (nth_error l i) as [x|] eqn:E.
  - exists x; reflexivity.
  - apply nth_error_None in E. lia.
Qed.

(** ** The phase switch *)

(** C1. While a breathing preset with a non-empty list of phases runs and
    [phaseTimeLeft] is at most 0.05, one run of the phase-switch effect
    moves [currentPhaseIndex] to [(currentPhaseIndex + 1) mod length] and
    sets [phaseTimeLeft] to the full duration of that phase, whatever
    remainder (possibly below zero) was left; nothing else changes. *)
Theorem phase_switch_step (s : State) (phases : list BreathPhase.t) :
  Preset.type (activePreset s) = breathing ->
  Preset.phases (activePreset s) = Some phases ->
  phases <> [] ->
  appState s = Running ->
  phaseTimeLeft s <= 0.05 ->
  exists s' ph,
    phaseSwitchEffect s = Some s' /\
    currentPhaseIndex s' = ((currentPhaseIndex s + 1) mod List.length phases)%nat /\
    nth_error phases (currentPhaseIndex s') = Some ph /\
    phaseTimeLeft s' = BreathPhase.duration ph /\
    activePreset s' = activePreset s /\
    appState s' = Running /\
    totalSessionTime s' = totalSessionTime s /\
    timerDuration s' = timerDuration s /\
    previousTimeRef s' = previousTimeRef s.
Proof.
  intros Hty Hph Hne Hrun Hle.
  assert (Hlen : List.length phases <> 0%nat)
    by (destruct phases; [contradiction | discriminate]).
  destruct (jsMod_some (currentPhaseIndex s + 1) _ Hlen) as [Hmod Hlt].
  destruct (nth_error_in_range phases _ Hlt) as [ph Hnth].
  unfold phaseSwitchEffect.
  rewrite Hty, Hph, Hrun.
  apply Qle_bool_iff in Hle. rewrite Hle, Hmod, Hnth.
  eexists _, ph. split; [reflexivity |].
  simpl. rewrite Hrun. repeat split; assumption.
Qed.

Lemma phase_switch_step_witness :
  let s := mkState boxBreathing Running 3 (-0.01) 16.01 0 (Some 16010) in
  exists s' ph,
    phaseSwitchEffect s = Some s' /\
    currentPhaseIndex s' = ((3 + 1) mod 4)%nat /\
    nth_error [ phase Inhale "Inhale" 4; phase Hold "Hold" 4;
                phase Exhale "Exhale" 4; phase Hold "Hold" 4 ]
              (currentPhaseIndex s') = Some ph /\
    phaseTimeLeft s' = BreathPhase.duration ph /\
    activePreset s' = activePreset s /\
    appState s' = Running /\
    totalSessionTime s' = totalSessionTime s /\
    timerDuration s' = timerDuration s /\
    previousTimeRef s' = previousTimeRef s.
Proof.
  intro s.
  apply (phase_switch_step s
           [ phase Inhale "Inhale" 4; phase Hold "Hold" 4;
             phase Exhale "Exhale" 4; phase Hold "Hold" 4 ]).
  - reflexivity.
  - reflexivity.
  - discriminate.
  - reflexivity.
  - simpl. lra.
Defined.

(** Above the threshold the effect leaves the state alone. *)
Lemma phase_switch_idle (s : State) :
  0.05 < phaseTimeLeft s -> phaseSwitchEffect s = Some s.
Proof.
  intro Hgt. unfold phaseSwitchEffect.
  destruct (Preset.type (activePreset s)); [| reflexivity].
  destruct (Preset.phases (activePreset s)); [| reflexivity].
  destruct (appState s); try reflexivity.
  destruct (Qle_bool (phaseTimeLeft s) 0.05) eqn:E; [| reflexivity].
  apply Qle_bool_iff in E. lra.
Qed.

(** ** Initialization *)

Lemma validPreset_breathing (p : Preset.t) :
  validPreset p = true -> Preset.type p = breathing ->
  exists ph phs,
    Preset.phases p = Some (ph :: phs) /\
    Forall (fun x => 0 < BreathPhase.duration x) (ph :: phs).
Proof.
  unfold validPreset. intros Hv Hty. rewrite Hty in Hv.
  destruct (Preset.phases p) as [[| ph phs] |]; try discriminate.
  exists ph, phs. split; [reflexivity |].
  apply Forall_forall. intros x Hx.
  rewrite forallb_forall in Hv. apply positive_spec, Hv, Hx.
Qed.

Lemma validPreset_timer (p : Preset.t) :
  validPreset p = true -> Preset.type p = timer ->
  exists d, Preset.defaultDuration p = Some d /\ 0 < d.
Proof.
  unfold validPreset. intros Hv Hty. rewrite Hty in Hv.
  destruct (Preset.defaultDuration p) as [d |]; try discriminate.
  exists d. split; [reflexivity | apply positive_spec, Hv].
Qed.

Lemma orDefault_positive (d x : Q) : 0 < d -> orDefault (Some d) x = d.
Proof.
  intro Hd. unfold orDefault.
  rewrite positive_nonzero; [reflexivity | apply positive_spec, Hd].
Qed.

Lemma initPreset_valid (p : Preset.t) (s : State) :
  validPreset p = true ->
  exists s',
    initPreset p s = Some s' /\
    activePreset s' = p /\
    appState s' = Idle /\
    totalSessionTime s' = 0 /\
    match Preset.type p with
    | breathing =>
        exists ph phs,
          Preset.phases p = Some (ph :: phs) /\
          currentPhaseIndex s' = 0%nat /\
          phaseTimeLeft s' = BreathPhase.duration ph
    | timer =>
        exists d,
          Preset.defaultDuration p = Some d /\
          timerDuration s' = d * 60
    end.
Proof.
  intro Hv. unfold initPreset.
  destruct (Preset.type p) eqn:Hty.
  - destruct (validPreset_breathing p Hv Hty) as (ph & phs & Hph & _).
    rewrite Hph. simpl. eexists. split; [reflexivity |].
    simpl. repeat split. exists ph, phs. repeat split.
  - destruct (validPreset_timer p Hv Hty) as (d & Hd & Hpos).
    eexists. split; [reflexivity |].
    simpl. repeat split. exists d. split; [assumption |].
    rewrite Hd, orDefault_positive by assumption. reflexivity.
Qed.

(** C8. From every state, and so from every run state, [reset] and the
    selection of a preset (both are [initPreset]) succeed on a preset of
    the catalog and leave the session idle with no elapsed time; a
    breathing preset is put at phase 0 with the full duration of its first
    phase, a timer preset at [defaultDuration * 60] seconds. *)
Theorem initPreset_reinitializes (p : Preset.t) (s : State) :
  validPreset p = true ->
  exists s',
    initPreset p s = Some s' /\
    (activePreset s = p -> reset s = Some s') /\
    activePreset s' = p /\
    appState s' = Idle /\
    totalSessionTime s' = 0 /\
    match Preset.type p with
    | breathing =>
        exists ph phs,
          Preset.phases p = Some (ph :: phs) /\
          currentPhaseIndex s' = 0%nat /\
          phaseTimeLeft s' = BreathPhase.duration ph
    | timer =>
        exists d,
          Preset.defaultDuration p = Some d /\
          timerDuration s' = d * 60
    end.
Proof.
  intro Hv.
  destruct (initPreset_valid p s Hv) as (s' & Hinit & Hrest).
  exists s'. split; [exact Hinit |]. split; [| exact Hrest].
  intro Hp. unfold reset. rewrite Hp. exact Hinit.
Qed.

Lemma initPreset_reinitializes_witness :
  let s := mkState oneMinute Completed 2 1.5 60 0 None in
  exists s',
    initPreset boxBreathing s = Some s' /\
    (activePreset s = boxBreathing -> reset s = Some s') /\
    activePreset s' = boxBreathing /\
    appState s' = Idle /\
    totalSessionTime s' = 0 /\
    exists ph phs,
      Preset.phases boxBreathing = Some (ph :: phs) /\
      currentPhaseIndex s' = 0%nat /\
      phaseTimeLeft s' = BreathPhase.duration ph.
Proof.
  intro s. apply (initPreset_reinitializes boxBreathing s). reflexivity.
Defined.

(** The same at a timer preset, from a paused breathing session. *)
Example reset_timer_example :
  let s := mkState oneMinute Paused 0 0 12.5 47.5 None in
  reset s = Some (mkState oneMinute Idle 0 0 0 60 None).
Proof. reflexivity. Qed.

(** C10. A timer preset whose [defaultDuration] is missing or zero is
    initialized, by selection or by reset, to 600 seconds: the fallback of
    ten minutes in [(defaultDuration || 10) * 60]. *)
Theorem initPreset_timer_fallback (p : Preset.t) (s : State) :
  Preset.type p = timer ->
  (Preset.defaultDuration p = None \/
   exists d, Preset.defaultDuration p = Some d /\ d == 0) ->
  exists s',
    initPreset p s = Some s' /\
    (activePreset s = p -> reset s = Some s') /\
    timerDuration s' = 600 /\
    appState s' = Idle /\
    totalSessionTime s' = 0.
Proof.
  intros Hty Hd. unfold reset, initPreset.
  eexists. split; [rewrite Hty; reflexivity |].
  split; [intros ->; rewrite Hty; reflexivity |].
  simpl. repeat split.
  destruct Hd as [-> | (d & -> & Hz)]; simpl.
  - reflexivity.
  - apply Qeq_bool_iff in Hz. rewrite Hz. reflexivity.
Qed.

Lemma initPreset_timer_fallback_witness :
  let p := timerPreset "open" None in
  let s := initialState boxBreathing in
  exists s',
    initPreset p s = Some s' /\
    (activePreset s = p -> reset s = Some s') /\
    timerDuration s' = 600 /\
    appState s' = Idle /\
    totalSessionTime s' = 0.
Proof.
  intros p s. apply (initPreset_timer_fallback p s).
  - reflexivity.
  - left. reflexivity.
Defined.

Example initPreset_zero_minutes :
  option_map timerDuration
    (initPreset (timerPreset "zero" (Some 0)) (initialState boxBreathing))
  = Some 600.
Proof. reflexivity. Qed.

(** ** Handlers and effects, field by field *)

Lemma animate_not_running (time : Q) (s : State) :
  appState s <> Running -> animate time s = s.
Proof.
  intro H. unfold animate.
  destruct (appState s); try reflexivity. contradiction.
Qed.

Lemma animate_first_frame (time : Q) (s : State) :
  appState s = Running -> previousTimeRef s = None ->
  animate time s = setPreviousTimeRef (Some time) s.
Proof. intros Hrun Hprev. unfold animate. rewrite Hrun, Hprev. reflexivity. Qed.

Lemma animate_activePreset (time : Q) (s : State) :
  activePreset (animate time s) = activePreset s.
Proof.
  unfold animate.
  destruct (appState s); simpl; try reflexivity.
  destruct (previousTimeRef s); simpl; try reflexivity.
  destruct (Preset.type (activePreset s)); simpl.
  - destruct (Preset.phases (activePreset s)); reflexivity.
  - destruct (Qle_bool _ 0); reflexivity.
Qed.

Lemma phaseSwitchEffect_frame (s s' : State) :
  phaseSwitchEffect s = Some s' ->
  activePreset s' = activePreset s /\
  appState s' = appState s /\
  totalSessionTime s' = totalSessionTime s /\
  timerDuration s' = timerDuration s /\
  previousTimeRef s' = previousTimeRef s.
Proof.
  unfold phaseSwitchEffect.
  destruct (Preset.type (activePreset s));
    [destruct (Preset.phases (activePreset s)) as [phases |] |];
    try (intros [= <-]; repeat split).
  destruct (appState s) eqn:Hrun; try (intros [= <-]; repeat split; assumption).
  destruct (Qle_bool (phaseTimeLeft s) 0.05); [| intros [= <-]; repeat split; assumption].
  destruct (jsMod _ _) as [nextIndex |]; [| discriminate].
  destruct (nth_error phases nextIndex) as [ph |]; [| discriminate].
  intros [= <-]. simpl. repeat split. assumption.
Qed.

Lemma phaseSwitchEffect_not_running (s : State) :
  appState s <> Running -> phaseSwitchEffect s = Some s.
Proof.
  intro H. unfold phaseSwitchEffect.
  destruct (Preset.type (activePreset s)); [| reflexivity].
  destruct (Preset.phases (activePreset s)); [| reflexivity].
  destruct (appState s); try reflexivity. contradiction.
Qed.

Lemma phaseSwitchEffect_timer (s : State) :
  Preset.type (activePreset s) = timer -> phaseSwitchEffect s = Some s.
Proof. intro H. unfold phaseSwitchEffect. rewrite H. reflexivity. Qed.

Lemma startStopEffect_running (s : State) :
  appState s = Running -> startStopEffect s = s.
Proof. intro H. unfold startStopEffect. rewrite H. reflexivity. Qed.

Lemma startStopEffect_not_running (s : State) :
  appState s <> Running -> startStopEffect s = setPreviousTimeRef None s.
Proof.
  intro H. unfold startStopEffect.
  destruct (appState s); try reflexivity. contradiction.
Qed.

Lemma effects_frame (s s' : State) :
  effects s = Some s' ->
  activePreset s' = activePreset s /\
  appState s' = appState s /\
  totalSessionTime s' = totalSessionTime s /\
  timerDuration s' = timerDuration s /\
  (appState s' <> Running -> previousTimeRef s' = None).
Proof.
  unfold effects. destruct (phaseSwitchEffect s) as [s1 |] eqn:E; [| discriminate].
  intros [= <-]. apply phaseSwitchEffect_frame in E.
  destruct E as (Hp & Ha & Ht & Hd & _).
  unfold startStopEffect.
  destruct (AppState_eqb (appState s1) Running) eqn:Hr; simpl.
  - repeat split; try assumption.
    apply AppState_eqb_eq in Hr. intro; contradiction.
  - repeat split; assumption.
Qed.

Lemma effects_not_running (s : State) :
  appState s <> Running -> effects s = Some (setPreviousTimeRef None s).
Proof.
  intro H. unfold effects.
  rewrite phaseSwitchEffect_not_running by assumption. simpl.
  rewrite startStopEffect_not_running by assumption. reflexivity.
Qed.

Lemma initPreset_appState (p : Preset.t) (s s' : State) :
  initPreset p s = Some s' -> appState s' = Idle /\ activePreset s' = p.
Proof.
  unfold initPreset.
  destruct (Preset.type p); [destruct (Preset.phases p) as [phases |] |].
  - destruct (nth_error phases 0); [| discriminate].
    intros [= <-]. split; reflexivity.
  - intros [= <-]. split; reflexivity.
  - intros [= <-]. split; reflexivity.
Qed.

Lemma step_keeps_no_baseline (e : Event) (s s' : State) :
  appState s <> Running -> previousTimeRef s = None ->
  step e s = Some s' -> previousTimeRef s' = None.
Proof.
  intros Hnot Hprev. unfold step.
  destruct (handle e s) as [s1 |] eqn:Hh; [| discriminate].
  assert (H1 : previousTimeRef s1 = None).
  { destruct e as [time | | | preset |]; simpl in Hh.
    - rewrite animate_not_running in Hh by assumption. congruence.
    - injection Hh as <-. unfold toggleTimer.
      destruct (AppState_eqb (appState s) Running); exact Hprev.
    - unfold reset, initPreset in Hh.
      destruct (Preset.type (activePreset s));
        [destruct (Preset.phases (activePreset s)) as [phases |];
         [destruct (nth_error phases 0) |] |];
        try discriminate; injection Hh as <-; exact Hprev.
    - unfold initPreset in Hh.
      destruct (Preset.type preset);
        [destruct (Preset.phases preset) as [phases |];
         [destruct (nth_error phases 0) |] |];
        try discriminate; injection Hh as <-; exact Hprev.
    - congruence. }
  unfold effects.
  destruct (phaseSwitchEffect s1) as [s2 |] eqn:Hsw; [| discriminate].
  apply phaseSwitchEffect_frame in Hsw. destruct Hsw as (_ & _ & _ & _ & H2).
  intros [= <-]. unfold startStopEffect.
  destruct (AppState_eqb (appState s2) Running); [congruence | reflexivity].
Qed.

Lemma toggleTimer_appState (s : State) :
  appState (toggleTimer s) = Running \/ appState (toggleTimer s) = Paused.
Proof.
  unfold toggleTimer. destruct (AppState_eqb (appState s) Running); simpl; auto.
Qed.

(** ** The session clock *)

(** C2, as the code has it.  A session enters Running without a
    baseline, and the first frame of a running period only records its
    timestamp as the new baseline.  Every later frame of the
    period advances the session by [(time - previous) / 1000] seconds and
    moves the baseline to [time]; that delta is not clamped: it is
    non-negative when the timestamp is not earlier than the baseline and
    negative otherwise.  Whenever a step leaves the session in a state
    other than Running, the baseline is undefined. *)
Theorem session_clock_delta :
  (forall e0 e s0 s s' time,
      step e0 s0 = Some s -> appState s <> Running ->
      step e s = Some s' -> appState s' = Running ->
      previousTimeRef s' = None /\
      animate time s' = setPreviousTimeRef (Some time) s') /\
  (forall s time,
      appState s = Running -> previousTimeRef s = None ->
      animate time s = setPreviousTimeRef (Some time) s) /\
  (forall s time previous,
      appState s = Running -> previousTimeRef s = Some previous ->
      let deltaTime := (time - previous) / 1000 in
      totalSessionTime (animate time s) = totalSessionTime s + deltaTime /\
      previousTimeRef (animate time s) = Some time /\
      match Preset.type (activePreset s), Preset.phases (activePreset s) with
      | breathing, Some _ =>
          phaseTimeLeft (animate time s) = phaseTimeLeft s - deltaTime
      | timer, _ =>
          timerDuration (animate time s) =
            if Qle_bool (timerDuration s - deltaTime) 0 then 0
            else timerDuration s - deltaTime
      | breathing, None => True
      end /\
      (previous <= time -> 0 <= deltaTime) /\
      (time < previous -> deltaTime < 0)) /\
  (forall e s s',
      step e s = Some s' -> appState s' <> Running -> previousTimeRef s' = None).
Proof.
  split; [| split; [| split]].
  - intros e0 e s0 s s' time Hstep0 Hnot Hstep Hrun.
    assert (Hprev : previousTimeRef s = None).
    { unfold step in Hstep0.
      destruct (handle e0 s0) as [s1 |]; [| discriminate].
      apply effects_frame in Hstep0. apply Hstep0, Hnot. }
    assert (Hprev' : previousTimeRef s' = None)
      by (apply (step_keeps_no_baseline e s s'); assumption).
    split; [exact Hprev' | apply animate_first_frame; assumption].
  - intros s time. apply animate_first_frame.
  - intros s time previous Hrun Hprev deltaTime.
    unfold animate. rewrite Hrun, Hprev. simpl.
    fold deltaTime.
    split; [| split; [| split; [| split]]].
    + destruct (Preset.type (activePreset s)); simpl.
      * destruct (Preset.phases (activePreset s)); reflexivity.
      * destruct (Qle_bool _ 0); reflexivity.
    + reflexivity.
    + destruct (Preset.type (activePreset s)); simpl.
      * destruct (Preset.phases (activePreset s)); reflexivity.
      * destruct (Qle_bool _ 0); reflexivity.
    + intro Hle. unfold deltaTime.
      assert (H : (time - previous) / 1000 == (time - previous) * (1 # 1000))
        by (field). rewrite H. nra.
    + intro Hlt. unfold deltaTime.
      assert (H : (time - previous) / 1000 == (time - previous) * (1 # 1000))
        by (field). rewrite H. nra.
  - intros e s s' Hstep Hnot. unfold step in Hstep.
    destruct (handle e s) as [s1 |]; [| discriminate].
    apply effects_frame in Hstep. apply Hstep, Hnot.
Qed.

(** C2 as stated fails: with the baseline at 2000 ms, a frame stamped
    1000 ms advances the session by -1 second, not by max(0, -1) = 0. *)
Lemma session_clock_negative_delta :
  exists s,
    run [Toggle; Tick 2000] (initialState boxBreathing) = Some s /\
    appState s = Running /\
    previousTimeRef s = Some 2000 /\
    totalSessionTime (animate 1000 s) == totalSessionTime s - 1 /\
    ~ totalSessionTime (animate 1000 s)
      == totalSessionTime s + Qmax 0 ((1000 - 2000) / 1000).
Proof.
  eexists. split; [by_computation |].
  split; [reflexivity |]. split; [reflexivity |].
  split.
  - by_computation.
  - intro H. vm_compute in H. discriminate H.
Qed.

(** ** Completion *)

Lemma run_ticks_not_running (times : list Q) (s : State) :
  appState s <> Running ->
  previousTimeRef s = None ->
  run (map Tick times) s = Some s.
Proof.
  intros Hnot Hprev. induction times as [| time times IH]; [reflexivity |].
  simpl. unfold step, handle.
  rewrite animate_not_running, effects_not_running by assumption.
  destruct s; simpl in *. subst. exact IH.
Qed.

Lemma step_tick_not_running (time : Q) (s : State) :
  appState s <> Running ->
  step (Tick time) s = Some (setPreviousTimeRef None s).
Proof.
  intro Hnot. unfold step, handle.
  rewrite animate_not_running by assumption.
  apply effects_not_running; assumption.
Qed.

Lemma animate_completes (time : Q) (s : State) :
  appState s <> Completed ->
  appState (animate time s) = Completed ->
  exists previous,
    appState s = Running /\
    Preset.type (activePreset s) = timer /\
    previousTimeRef s = Some previous /\
    timerDuration s - (time - previous) / 1000 <= 0 /\
    timerDuration (animate time s) = 0.
Proof.
  intro Hnot. unfold animate.
  destruct (appState s) eqn:Hrun; simpl;
    try (rewrite Hrun; intro H; congruence).
  destruct (previousTimeRef s) as [previous |]; simpl;
    [| rewrite Hrun; discriminate].
  destruct (Preset.type (activePreset s)); simpl.
  - destruct (Preset.phases (activePreset s)); simpl; rewrite Hrun; discriminate.
  - destruct (Qle_bool _ 0) eqn:Hle; simpl; [| rewrite Hrun; discriminate].
    intros _. exists previous. apply Qle_bool_iff in Hle. simpl in Hle.
    repeat split; assumption.
Qed.

(** C3. A step takes a session that is not completed to Completed exactly
    when it is a frame of a running timer preset at which the remaining
    time [timerDuration - deltaTime] is at most 0; [timerDuration] is then
    exactly 0.  Frames that arrive while Completed change nothing, so over
    any sequence of frames the session stays completed with the same
    values.  With a breathing preset no sequence of frames leads to
    Completed. *)
Theorem completed_on_timer_expiry :
  (forall e s s',
      step e s = Some s' ->
      appState s <> Completed ->
      appState s' = Completed ->
      exists time previous,
        e = Tick time /\
        appState s = Running /\
        Preset.type (activePreset s) = timer /\
        previousTimeRef s = Some previous /\
        timerDuration s - (time - previous) / 1000 <= 0 /\
        timerDuration s' = 0) /\
  (forall s time previous,
      appState s = Running ->
      Preset.type (activePreset s) = timer ->
      previousTimeRef s = Some previous ->
      timerDuration s - (time - previous) / 1000 <= 0 ->
      exists s',
        step (Tick time) s = Some s' /\
        appState s' = Completed /\
        timerDuration s' = 0) /\
  (forall s time,
      appState s = Completed ->
      animate time s = s /\
      step (Tick time) s = Some (setPreviousTimeRef None s)) /\
  (forall s times,
      appState s = Completed ->
      exists s',
        run (map Tick times) s = Some s' /\
        appState s' = Completed /\
        timerDuration s' = timerDuration s /\
        totalSessionTime s' = totalSessionTime s /\
        phaseTimeLeft s' = phaseTimeLeft s /\
        currentPhaseIndex s' = currentPhaseIndex s) /\
  (forall s times s',
      Preset.type (activePreset s) = breathing ->
      appState s <> Completed ->
      run (map Tick times) s = Some s' ->
      appState s' <> Completed).
Proof.
  split; [| split; [| split; [| split]]].
  - intros e s s' Hstep Hnot Hdone. unfold step in Hstep.
    destruct (handle e s) as [s1 |] eqn:Hh; [| discriminate].
    apply effects_frame in Hstep. destruct Hstep as (_ & Ha & _ & Hd & _).
    rewrite Ha in Hdone. rewrite Hd.
    destruct e as [time | | | preset |]; simpl in Hh.
    + injection Hh as <-.
      destruct (animate_completes time s Hnot Hdone) as (previous & H).
      exists time, previous. split; [reflexivity | exact H].
    + injection Hh as <-.
      destruct (toggleTimer_appState s) as [H | H]; congruence.
    + apply initPreset_appState in Hh. destruct Hh. congruence.
    + apply initPreset_appState in Hh. destruct Hh. congruence.
    + injection Hh as <-. contradiction.
  - intros s time previous Hrun Hty Hprev Hle.
    apply Qle_bool_iff in Hle.
    unfold step, handle, animate. rewrite Hrun, Hprev. simpl.
    rewrite Hty. simpl. rewrite Hle.
    rewrite effects_not_running by (simpl; discriminate).
    eexists. split; [reflexivity |]. split; reflexivity.
  - intros s time Hdone.
    assert (Hnot : appState s <> Running) by congruence.
    split; [apply animate_not_running | apply step_tick_not_running]; assumption.
  - intros s times Hdone.
    assert (Hnot : appState s <> Running) by congruence.
    destruct times as [| time times].
    + exists s. repeat split. exact Hdone.
    + exists (setPreviousTimeRef None s). simpl.
      rewrite step_tick_not_running by assumption.
      rewrite run_ticks_not_running by (simpl; congruence).
      repeat split. exact Hdone.
  - intros s times. revert s.
    induction times as [| time times IH]; intros s s' Hty Hnot Hrun.
    + injection Hrun as <-. assumption.
    + simpl in Hrun. destruct (step (Tick time) s) as [s1 |] eqn:Hstep; [| discriminate].
      apply (IH s1 s'); [| | assumption].
      * unfold step, handle in Hstep. apply effects_frame in Hstep.
        destruct Hstep as (Hp & _). rewrite Hp, animate_activePreset. assumption.
      * intro Hdone.
        unfold step, handle in Hstep.
        pose proof Hstep as Hst. apply effects_frame in Hst.
        destruct Hst as (_ & Ha & _).
        rewrite Ha in Hdone.
        destruct (animate_completes time s Hnot Hdone) as (previous & _ & Ht & _).
        congruence.
Qed.

(** ** Pausing *)

Lemma run_app (es1 es2 : list Event) (s : State) :
  run (es1 ++ es2) s =
  match run es1 s with
  | Some s' => run es2 s'
  | None => None
  end.
Proof.
  revert s. induction es1 as [| e es1 IH]; intro s; simpl; [reflexivity |].
  destruct (step e s); [apply IH | reflexivity].
Qed.

Lemma step_pause (s : State) :
  appState s = Running ->
  step Toggle s = Some (setPreviousTimeRef None (setAppState Paused s)).
Proof.
  intro Hrun. unfold step, handle, toggleTimer. rewrite Hrun. simpl.
  apply effects_not_running. simpl. discriminate.
Qed.

(** C4. A frame delivered while the session is not running (paused, idle
    or completed) changes neither [totalSessionTime], [phaseTimeLeft],
    [currentPhaseIndex] nor [timerDuration], whatever its timestamp.
    Pausing a running session, any frames in between, and resuming lead
    to the state that pausing and resuming at once lead to, with no
    baseline; the first frame after resuming therefore records its
    timestamp only.  When the phase was not due to switch, that state is
    the one the session was paused in. *)
Theorem paused_clock_frozen :
  (forall s time,
      appState s <> Running ->
      animate time s = s /\
      exists s',
        step (Tick time) s = Some s' /\
        appState s' = appState s /\
        totalSessionTime s' = totalSessionTime s /\
        phaseTimeLeft s' = phaseTimeLeft s /\
        currentPhaseIndex s' = currentPhaseIndex s /\
        timerDuration s' = timerDuration s) /\
  (forall s times,
      appState s = Running ->
      run (Toggle :: map Tick times) s
        = Some (setPreviousTimeRef None (setAppState Paused s)) /\
      run (Toggle :: map Tick times ++ [Toggle]) s = run [Toggle; Toggle] s /\
      (0.05 < phaseTimeLeft s \/ Preset.type (activePreset s) = timer ->
       run (Toggle :: map Tick times ++ [Toggle]) s
         = Some (setPreviousTimeRef None s)) /\
      (forall resumed time,
          run (Toggle :: map Tick times ++ [Toggle]) s = Some resumed ->
          appState resumed = Running /\
          previousTimeRef resumed = None /\
          totalSessionTime resumed = totalSessionTime s /\
          timerDuration resumed = timerDuration s /\
          animate time resumed = setPreviousTimeRef (Some time) resumed)).
Proof.
  split.
  - intros s time Hnot. split; [apply animate_not_running; assumption |].
    exists (setPreviousTimeRef None s).
    split; [apply step_tick_not_running; assumption |].
    repeat split.
  - intros s times Hrun.
    set (paused := setPreviousTimeRef None (setAppState Paused s)).
    assert (Hp : run (Toggle :: map Tick times) s = Some paused).
    { simpl. rewrite step_pause by assumption.
      apply run_ticks_not_running; simpl; [discriminate | reflexivity]. }
    assert (Hr : run (Toggle :: map Tick times ++ [Toggle]) s = run [Toggle; Toggle] s).
    { change (Toggle :: map Tick times ++ [Toggle])
        with ((Toggle :: map Tick times) ++ [Toggle]).
      rewrite run_app, Hp. simpl. rewrite (step_pause s) by assumption.
      reflexivity. }
    assert (Hstep : run [Toggle; Toggle] s
                    = effects (setPreviousTimeRef None (setAppState Running s))).
    { simpl. rewrite step_pause by assumption.
      unfold step, handle, toggleTimer. simpl.
      destruct (effects _); reflexivity. }
    split; [exact Hp |]. split; [exact Hr |]. split.
    + intro Hcase. rewrite Hr, Hstep. unfold effects.
      assert (Hsw : phaseSwitchEffect (setPreviousTimeRef None (setAppState Running s))
                    = Some (setPreviousTimeRef None (setAppState Running s))).
      { destruct Hcase as [Hgt | Hty].
        - apply phase_switch_idle. exact Hgt.
        - apply phaseSwitchEffect_timer. exact Hty. }
      rewrite Hsw. simpl.
      rewrite startStopEffect_running by reflexivity.
      destruct s; simpl in *. subst. reflexivity.
    + intros resumed time Hres. rewrite Hr, Hstep in Hres.
      unfold effects in Hres.
      destruct (phaseSwitchEffect _) as [s1 |] eqn:Hsw; [| discriminate].
      apply phaseSwitchEffect_frame in Hsw. simpl in Hsw.
      destruct Hsw as (_ & Ha & Ht & Hd & Hprev).
      simpl in Hres. rewrite startStopEffect_running in Hres by assumption.
      injection Hres as <-.
      repeat split; try assumption.
      apply animate_first_frame; assumption.
Qed.

(** A paused box-breathing session: an hour of wall-clock time passes
    between the frames, and the session resumes where it was. *)
Example pause_resume_box :
  let s := mkState boxBreathing Running 2 1.5 10.5 0 (Some 10500) in
  run [Toggle; Tick 10516; Tick 3610516; Toggle; Tick 3610532] s
  = Some (mkState boxBreathing Running 2 1.5 10.5 0 (Some 3610532)).
Proof. reflexivity. Qed.

(** ** Commands on a completed session *)

(** C7 as stated fails: on a completed timer session the start/pause
    command is not a no-op, it sets the run state to Running. *)
Lemma completed_toggle_resumes :
  exists s s',
    run [Select oneMinute; Toggle; Tick 0; Tick 30000; Tick 61000]
        (initialState boxBreathing) = Some s /\
    appState s = Completed /\
    step Toggle s = Some s' /\
    appState s' = Running /\
    s' <> s.
Proof.
  eexists. eexists.
  split; [by_computation |]. split; [reflexivity |].
  split; [by_computation |]. split; [reflexivity |].
  discriminate.
Qed.

(** C7, as the code has it.  On a completed session the start/pause
    command sets the run state to Running and changes nothing else; reset
    and the selection of a preset lead to Idle; a frame changes nothing. *)
Theorem toggle_from_completed (s : State) :
  appState s = Completed ->
  toggleTimer s = setAppState Running s /\
  (Preset.type (activePreset s) = timer ->
   step Toggle s = Some (setAppState Running s)) /\
  (forall s', reset s = Some s' -> appState s' = Idle) /\
  (forall p s', initPreset p s = Some s' -> appState s' = Idle) /\
  (forall time, animate time s = s).
Proof.
  intro Hdone. split; [| split; [| split; [| split]]].
  - unfold toggleTimer. rewrite Hdone. reflexivity.
  - intro Hty. unfold step, handle, toggleTimer. rewrite Hdone. simpl.
    unfold effects. rewrite phaseSwitchEffect_timer by exact Hty. simpl.
    rewrite startStopEffect_running by reflexivity. reflexivity.
  - intros s' H. apply initPreset_appState in H. apply H.
  - intros p s' H. apply initPreset_appState in H. apply H.
  - intro time. apply animate_not_running. congruence.
Qed.

Lemma toggle_from_completed_witness :
  let s := mkState oneMinute Completed 0 0 61 0 None in
  toggleTimer s = setAppState Running s /\
  (Preset.type (activePreset s) = timer ->
   step Toggle s = Some (setAppState Running s)) /\
  (forall s', reset s = Some s' -> appState s' = Idle) /\
  (forall p s', initPreset p s = Some s' -> appState s' = Idle) /\
  (forall time, animate time s = s).
Proof.
  intro s. apply (toggle_from_completed s). reflexivity.
Defined.

(** ** The bounds on a session *)

Lemma deltaTime_nonneg (time previous : Q) :
  previous <= time -> 0 <= (time - previous) / 1000.
Proof.
  intro Hle.
  assert (H : (time - previous) / 1000 == (time - previous) * (1 # 1000)) by field.
  rewrite H. nra.
Qed.

Lemma wellFormed_initial (p0 : Preset.t) :
  validPreset p0 = true -> wellFormed (initialState p0).
Proof.
  intro Hv. split; [exact Hv |]. simpl.
  destruct (Preset.type p0) eqn:Hty.
  - destruct (validPreset_breathing p0 Hv Hty) as (ph & phs & Hph & Hall).
    exists (ph :: phs), ph. repeat split; [assumption |].
    inversion Hall; subst. simpl. lra.
  - destruct (validPreset_timer p0 Hv Hty) as (d & Hd & Hpos).
    exists d. split; [assumption |]. rewrite Hd.
    rewrite positive_nonzero by (apply positive_spec; assumption).
    split; lra.
Qed.

Lemma wellFormed_initPreset (p : Preset.t) (s s' : State) :
  validPreset p = true -> initPreset p s = Some s' -> wellFormed s'.
Proof.
  intros Hv Hinit.
  destruct (initPreset_valid p s Hv) as (s1 & Hs1 & Hp & _ & _ & Hcase).
  rewrite Hs1 in Hinit. injection Hinit as <-.
  split; [rewrite Hp; exact Hv |]. rewrite Hp.
  destruct (Preset.type p) eqn:Hty.
  - destruct Hcase as (ph & phs & Hph & Hi & Ht).
    exists (ph :: phs), ph. rewrite Hi, Ht. repeat split; [assumption | lra].
  - destruct Hcase as (d & Hd & Ht).
    destruct (validPreset_timer p Hv Hty) as (d' & Hd' & Hpos).
    assert (d' = d) by congruence. subst d'.
    exists d. rewrite Ht. split; [assumption | split; lra].
Qed.

Lemma wellFormed_setPreviousTimeRef (r : option Q) (s : State) :
  wellFormed s -> wellFormed (setPreviousTimeRef r s).
Proof. intro H. exact H. Qed.

Lemma wellFormed_setAppState (a : AppState) (s : State) :
  wellFormed s -> wellFormed (setAppState a s).
Proof. intro H. exact H. Qed.

Lemma wellFormed_animate (time : Q) (s : State) :
  wellFormed s -> orderedFrame (Tick time) s -> wellFormed (animate time s).
Proof.
  intros [Hv Hwf] Hord. unfold animate.
  destruct (negb (AppState_eqb (appState s) Running)); [split; assumption |].
  apply wellFormed_setPreviousTimeRef.
  unfold orderedFrame in Hord.
  destruct (previousTimeRef s) as [previous |]; [| split; assumption].
  apply deltaTime_nonneg in Hord.
  set (deltaTime := (time - previous) / 1000) in *.
  simpl.
  destruct (Preset.type (activePreset s)) eqn:Hty.
  - destruct Hwf as (phases & ph & Hph & Hnth & Hle).
    rewrite Hph. split; [exact Hv |]. simpl. rewrite Hty.
    exists phases, ph. repeat split; try assumption. simpl. lra.
  - destruct Hwf as (d & Hd & Hlo & Hhi).
    destruct (Qle_bool (timerDuration s - deltaTime) 0) eqn:Hcmp;
      (split; [exact Hv |]); simpl; rewrite Hty; exists d;
      (split; [assumption |]); simpl.
    + split; lra.
    + assert (~ timerDuration s - deltaTime <= 0)
        by (rewrite <- Qle_bool_iff, Hcmp; discriminate).
      split; lra.
Qed.

Lemma wellFormed_toggleTimer (s : State) :
  wellFormed s -> wellFormed (toggleTimer s).
Proof.
  intro H. unfold toggleTimer.
  destruct (AppState_eqb (appState s) Running); apply wellFormed_setAppState, H.
Qed.

Lemma wellFormed_phaseSwitchEffect (s s' : State) :
  wellFormed s -> phaseSwitchEffect s = Some s' -> wellFormed s'.
Proof.
  intros Hwf. pose proof Hwf as [Hv Hcase]. unfold phaseSwitchEffect.
  destruct (Preset.type (activePreset s)) eqn:Hty;
    [| intros [= <-]; exact Hwf].
  destruct Hcase as (phases & ph0 & Hph & _).
  rewrite Hph.
  destruct (appState s); try (intros [= <-]; exact Hwf).
  destruct (Qle_bool (phaseTimeLeft s) 0.05); [| intros [= <-]; exact Hwf].
  destruct (jsMod _ _) as [nextIndex |]; [| discriminate].
  destruct (nth_error phases nextIndex) as [ph |] eqn:Hnth; [| discriminate].
  intros [= <-]. split; [exact Hv |]. simpl. rewrite Hty.
  exists phases, ph. repeat split; try assumption. simpl. lra.
Qed.

Lemma wellFormed_effects (s s' : State) :
  wellFormed s -> effects s = Some s' -> wellFormed s'.
Proof.
  intros Hwf. unfold effects.
  destruct (phaseSwitchEffect s) as [s1 |] eqn:Hsw; [| discriminate].
  intros [= <-]. unfold startStopEffect.
  destruct (AppState_eqb (appState s1) Running);
    [| apply wellFormed_setPreviousTimeRef];
    apply (wellFormed_phaseSwitchEffect s s1); assumption.
Qed.

Lemma wellFormed_step (e : Event) (s s' : State) :
  wellFormed s -> validEvent e -> orderedFrame e s ->
  step e s = Some s' -> wellFormed s'.
Proof.
  intros Hwf He Hord. unfold step.
  destruct (handle e s) as [s1 |] eqn:Hh; [| discriminate].
  intro Heff. apply (wellFormed_effects s1 s'); [| assumption].
  destruct e as [time | | | preset |]; simpl in Hh.
  - injection Hh as <-. apply wellFormed_animate; assumption.
  - injection Hh as <-. apply wellFormed_toggleTimer; assumption.
  - apply (wellFormed_initPreset (activePreset s) s s1); [apply Hwf | exact Hh].
  - apply (wellFormed_initPreset preset s s1); [exact He | exact Hh].
  - injection Hh as <-. assumption.
Qed.

Lemma wellFormed_reachable (p0 : Preset.t) (s : State) :
  validPreset p0 = true -> reachable orderedFrame p0 s -> wellFormed s.
Proof.
  intros Hv Hreach. induction Hreach as [| e s s' _ IH He Hord Hstep].
  - apply wellFormed_initial, Hv.
  - apply (wellFormed_step e s s'); assumption.
Qed.

Lemma wellFormed_bounds (s : State) : wellFormed s -> sessionBounds s.
Proof.
  intros [_ Hwf]. unfold sessionBounds.
  destruct (Preset.type (activePreset s)).
  - destruct Hwf as (phases & ph & Hph & Hnth & Hle).
    exists phases, ph. repeat split; try assumption.
    + apply nth_error_Some. congruence.
    + lra.
  - exact Hwf.
Qed.

Lemma reachable_run (admits : Event -> State -> Prop) (p0 : Preset.t)
      (es : list Event) (s s' : State) :
  (forall e x, admits e x) ->
  Forall validEvent es ->
  reachable admits p0 s -> run es s = Some s' -> reachable admits p0 s'.
Proof.
  intros Hadm Hes. revert s. induction Hes as [| e es He _ IH]; intros s Hreach Hrun.
  - injection Hrun as <-. assumption.
  - simpl in Hrun. destruct (step e s) as [s1 |] eqn:Hstep; [| discriminate].
    apply (IH s1); [| assumption].
    apply (reach_step admits p0 e s s1); auto.
Qed.

(** C9 as stated fails: frames may go back in time.  After a frame
    stamped 5000 ms, a frame stamped 0 ms leaves a running box-breathing
    session nine seconds into a phase of four. *)
Lemma bounds_fail_on_unordered_frames :
  exists s,
    run [Toggle; Tick 5000; Tick 0] (initialState boxBreathing) = Some s /\
    reachable anyFrame boxBreathing s /\
    appState s = Running /\
    phaseTimeLeft s == 9 /\
    ~ sessionInvariant s.
Proof.
  eexists. split; [by_computation |].
  split; [| split; [reflexivity | split]].
  - apply (reachable_run anyFrame boxBreathing [Toggle; Tick 5000; Tick 0]
             (initialState boxBreathing)).
    + intros e x. exact I.
    + repeat constructor.
    + apply reach_init.
    + by_computation.
  - by_computation.
  - intro Hinv.
    destruct Hinv as (phases & ph & Hph & _ & Hnth & Hle); [left; reflexivity |].
    simpl in Hph. injection Hph as <-.
    simpl in Hnth. injection Hnth as <-.
    vm_compute in Hle. apply Hle. reflexivity.
Qed.

(** C9, as the code has it.  In every state reachable from a preset of
    the catalog by commands and by frames whose timestamps are never
    earlier than the recorded baseline, while the session runs or is
    paused: a breathing preset has [0 <= currentPhaseIndex < length] and
    [phaseTimeLeft] at most the duration of the current phase plus 0.05; a
    timer preset has [0 <= timerDuration <= defaultDuration * 60]. *)
Theorem session_bounds_invariant (p0 : Preset.t) (s : State) :
  validPreset p0 = true ->
  reachable orderedFrame p0 s ->
  sessionInvariant s.
Proof.
  intros Hv Hreach _.
  apply wellFormed_bounds, (wellFormed_reachable p0 s); assumption.
Qed.

Lemma session_bounds_invariant_witness :
  let s := mkState boxBreathing Running 1 4 0 0 None in
  validPreset boxBreathing = true /\
  run [Toggle] (initialState boxBreathing) = Some s /\
  sessionBounds s.
Proof.
  intro s. split; [reflexivity |]. split; [reflexivity |].
  apply (session_bounds_invariant boxBreathing s).
  - reflexivity.
  - apply (reach_step orderedFrame boxBreathing Toggle (initialState boxBreathing)).
    + apply reach_init.
    + exact I.
    + exact I.
    + reflexivity.
  - left. reflexivity.
Defined.

(** ** The visual state *)

Lemma progress_in_unit_interval (t d : Q) :
  0 < d -> 0 <= t <= d -> 0 <= 1 - t / d <= 1.
Proof.
  intros Hd [Hlo Hhi].
  assert (Hq : t / d * d == t) by (field; lra).
  assert (Hinv : 0 < / d) by (apply Qinv_lt_0_compat; exact Hd).
  assert (H0 : 0 <= t / d) by (unfold Qdiv; nra).
  assert (H1 : t / d <= 1).
  { apply Qle_shift_div_r; [exact Hd | lra]. }
  lra.
Qed.

(** While [phaseTimeLeft] lies between zero and the duration of the
    current phase, the scale lies between 1 and 1.8. *)
Lemma visual_scale_in_range (s : State) (phases : list BreathPhase.t)
      (ph : BreathPhase.t) (v : Visual) :
  Preset.phases (activePreset s) = Some phases ->
  nth_error phases (currentPhaseIndex s) = Some ph ->
  0 < BreathPhase.duration ph ->
  0 <= phaseTimeLeft s <= BreathPhase.duration ph ->
  getVisualState s = Some v ->
  1 <= targetScale v <= 1.8.
Proof.
  intros Hph Hnth Hd Hrange. unfold getVisualState. rewrite Hph, Hnth.
  cbv zeta.
  destruct (nth_error phases (if Nat.eqb (currentPhaseIndex s) 0 then _ else _))
    as [prevPhase |]; [| discriminate].
  intros [= <-]. simpl.
  pose proof (progress_in_unit_interval _ _ Hd Hrange) as Hp.
  destruct (BreathPhase.type ph).
  - lra.
  - destruct (_ || _); lra.
  - lra.
  - lra.
Qed.

(** C5, at the failing input.  A box of Inhale 4 s and Exhale 4 s runs;
    frames arrive at 0 ms and at 4100 ms.  The render that follows the
    second frame sees [phaseTimeLeft = -0.1] (the switch has not yet
    happened): the progress is 1.025, not clamped, and the scale is 1.82,
    above 1.8. *)
Theorem visual_scale_overshoot :
  exists s v,
    run [Select inhaleExhale; Toggle; Tick 0] (initialState inhaleExhale) = Some s /\
    appState (animate 4100 s) = Running /\
    currentPhaseIndex (animate 4100 s) = 0%nat /\
    phaseTimeLeft (animate 4100 s) == -0.1 /\
    dynamicVisual (animate 4100 s) = Some v /\
    targetScale v == 1.82 /\
    ~ targetScale v <= 1.8.
Proof.
  eexists. eexists.
  split; [by_computation |].
  split; [by_computation |]. split; [by_computation |].
  split; [by_computation |]. split; [by_computation |].
  split; [by_computation |].
  intro H. vm_compute in H. apply H. reflexivity.
Qed.

(** After a phase that is not a Hold, the Hold scale of the code is the
    one of the lookback rule. *)
Lemma hold_scale_after_non_hold (s : State) (phases : list BreathPhase.t)
      (ph prevPhase : BreathPhase.t) (v : Visual) :
  Preset.phases (activePreset s) = Some phases ->
  nth_error phases (currentPhaseIndex s) = Some ph ->
  BreathPhase.type ph = Hold ->
  nth_error phases (cyclicPred (List.length phases) (currentPhaseIndex s))
    = Some prevPhase ->
  BreathPhase.type prevPhase <> Hold ->
  getVisualState s = Some v ->
  targetScale v = holdScaleSpec phases (currentPhaseIndex s).
Proof.
  intros Hph Hnth Hhold Hprev Hnot.
  unfold getVisualState. rewrite Hph, Hnth.
  assert (Hidx : (if Nat.eqb (currentPhaseIndex s) 0
                  then (List.length phases - 1)%nat
                  else (currentPhaseIndex s - 1)%nat)
                 = cyclicPred (List.length phases) (currentPhaseIndex s)).
  { destruct (currentPhaseIndex s); simpl; [reflexivity | lia]. }
  rewrite Hidx, Hprev, Hhold. intros [= <-]. simpl.
  assert (Hlen : exists k, List.length phases = S k).
  { destruct phases; [destruct (currentPhaseIndex s); discriminate |].
    eexists; reflexivity. }
  destruct Hlen as [k Hk].
  unfold holdScaleSpec. rewrite Hk. cbn [lookbackScale]. rewrite <- Hk, Hprev.
  unfold isType.
  destruct (BreathPhase.type prevPhase); simpl; try reflexivity.
  contradiction.
Qed.

(** C6, at the failing inputs.  With an Inhale followed by three Holds,
    the session reaches the third Hold; the code looks back two phases
    only, finds a Hold, and answers 1, while the scale of the Hold before
    it was 1.8 and the lookback rule answers 1.8.  With two Holds at the
    head of the cycle and an Inhale at its end, the code does not wrap at
    the second step back and answers 1 for the second Hold. *)
Theorem hold_lookback_stops_short :
  (exists s2 s3 v2 v3 phases,
      run [Select longHold; Toggle; Tick 0; Tick 4000; Tick 8000]
          (initialState boxBreathing) = Some s2 /\
      step (Tick 12000) s2 = Some s3 /\
      Preset.phases (activePreset s3) = Some phases /\
      currentPhaseIndex s2 = 2%nat /\
      currentPhaseIndex s3 = 3%nat /\
      dynamicVisual s2 = Some v2 /\ targetScale v2 = 1.8 /\
      dynamicVisual s3 = Some v3 /\ targetScale v3 = 1 /\
      holdScaleSpec phases 3 = 1.8) /\
  (let phases := [ phase Hold "Hold" 2; phase Hold "Hold" 2;
                   phase Exhale "Exhale" 4; phase Inhale "Inhale" 4 ] in
   let s := mkState (breathingPreset "wrap" phases) Running 1 2 0 0 None in
   option_map targetScale (getVisualState s) = Some 1 /\
   holdScaleSpec phases 1 = 1.8).
Proof.
  split.
  - do 5 eexists.
    repeat (split; [by_computation |]). by_computation.
  - split; by_computation.
Qed.

(** * Further properties of the component *)

(** ** The clock display *)

Lemma readsBack_below_6000 :
  forallb readsBack (seq 0 (Z.to_nat 6000)) = true.
Proof. vm_compute. reflexivity. Qed.

Lemma formatTime_readClock (z : Z) :
  (0 <= z < 6000)%Z -> readClock (formatTime z) = Some z.
Proof.
  intros [Hlo Hhi].
  pose proof readsBack_below_6000 as Hall.
  rewrite forallb_forall in Hall.
  specialize (Hall (Z.to_nat z)).
  assert (Hin : In (Z.to_nat z) (seq 0 (Z.to_nat 6000))) by (apply in_seq; lia).
  apply Hall in Hin. unfold readsBack in Hin.
  rewrite Z2Nat.id in Hin by assumption.
  destruct (readClock (formatTime z)) as [v |]; [| discriminate].
  apply Z.eqb_eq in Hin. congruence.
Qed.

Lemma readClock_length (s : string) (v : Z) :
  readClock s = Some v -> String.length s = 5%nat.
Proof.
  unfold readClock.
  destruct s as [| a [| b [| c [| d [| e [| f s]]]]]]; try discriminate.
  intros _. reflexivity.
Qed.

(** X1. Below one hundred minutes the clock text has the shape [dd:dd]:
    five characters that read back as the seconds it was made from, so
    two different numbers of seconds never show the same text. *)
Theorem formatTime_faithful (a b : Z) :
  (0 <= a < 6000)%Z -> (0 <= b < 6000)%Z ->
  String.length (formatTime a) = 5%nat /\
  readClock (formatTime a) = Some a /\
  (formatTime a = formatTime b -> a = b).
Proof.
  intros Ha Hb.
  pose proof (formatTime_readClock a Ha) as Hra.
  pose proof (formatTime_readClock b Hb) as Hrb.
  split; [apply (readClock_length _ a); exact Hra |].
  split; [exact Hra |].
  intro Heq. rewrite Heq in Hra. congruence.
Qed.

Lemma formatTime_faithful_witness :
  String.length (formatTime 125) = 5%nat /\
  readClock (formatTime 125) = Some 125%Z /\
  (formatTime 125 = formatTime 59 -> 125%Z = 59%Z).
Proof. apply (formatTime_faithful 125 59); lia. Defined.

Example formatTime_examples :
  formatTime 0 = "00:00"%string /\
  formatTime 59 = "00:59"%string /\
  formatTime 600 = "10:00"%string /\
  formatTime 6000 = "100:00"%string /\
  formatTime (-5) = "-1:-5"%string.
Proof. repeat split. Qed.

(** ** States after the effects *)

Lemma wellFormed_handle (e : Event) (s s1 : State) :
  wellFormed s -> validEvent e -> orderedFrame e s ->
  handle e s = Some s1 -> wellFormed s1.
Proof.
  intros Hwf He Hord Hh.
  destruct e as [time | | | preset |]; simpl in Hh.
  - injection Hh as <-. apply wellFormed_animate; assumption.
  - injection Hh as <-. apply wellFormed_toggleTimer; assumption.
  - apply (wellFormed_initPreset (activePreset s) s s1); [apply Hwf | exact Hh].
  - apply (wellFormed_initPreset preset s s1); [exact He | exact Hh].
  - injection Hh as <-. assumption.
Qed.

Lemma wellFormed_duration_positive (s : State) (phases : list BreathPhase.t)
      (i : nat) (ph : BreathPhase.t) :
  wellFormed s ->
  Preset.type (activePreset s) = breathing ->
  Preset.phases (activePreset s) = Some phases ->
  nth_error phases i = Some ph ->
  0 < BreathPhase.duration ph.
Proof.
  intros [Hv _] Hty Hph Hnth.
  destruct (validPreset_breathing _ Hv Hty) as (p & ps & Hph' & Hall).
  rewrite Hph in Hph'. injection Hph' as ->.
  rewrite Forall_forall in Hall. apply Hall.
  apply (nth_error_In _ _ Hnth).
Qed.

(** Once the effects have run, a running breathing session has time left
    in its phase. *)
Lemma effects_settle (s1 s' : State) :
  wellFormed s1 -> effects s1 = Some s' ->
  appState s' = Running -> Preset.type (activePreset s') = breathing ->
  0 < phaseTimeLeft s'.
Proof.
  intros Hwf Heff Hrun Hty.
  pose proof (effects_frame _ _ Heff) as (Hp & Ha & _).
  unfold effects in Heff.
  destruct (phaseSwitchEffect s1) as [s2 |] eqn:Hsw; [| discriminate].
  injection Heff as <-.
  assert (Hrun2 : appState s2 = Running).
  { unfold startStopEffect in Hrun.
    destruct (AppState_eqb (appState s2) Running) eqn:E.
    - apply AppState_eqb_eq, E.
    - exact Hrun. }
  rewrite startStopEffect_running in * by exact Hrun2.
  rewrite Hp in Hty. rewrite Ha in Hrun.
  destruct Hwf as [Hv Hcase]. pose proof (conj Hv Hcase) as Hwf.
  rewrite Hty in Hcase. destruct Hcase as (phases & ph0 & Hph & _).
  unfold phaseSwitchEffect in Hsw. rewrite Hty, Hph, Hrun in Hsw.
  destruct (Qle_bool (phaseTimeLeft s1) 0.05) eqn:Hcmp.
  - destruct (jsMod _ _) as [nextIndex |]; [| discriminate].
    destruct (nth_error phases nextIndex) as [ph |] eqn:Hnth; [| discriminate].
    injection Hsw as <-. simpl.
    apply (wellFormed_duration_positive s1 phases nextIndex ph); assumption.
  - injection Hsw as <-.
    assert (~ phaseTimeLeft s1 <= 0.05)
      by (rewrite <- Qle_bool_iff, Hcmp; discriminate).
    lra.
Qed.

Lemma reachable_settled (p0 : Preset.t) (s : State) :
  validPreset p0 = true ->
  reachable orderedFrame p0 s ->
  appState s = Running -> Preset.type (activePreset s) = breathing ->
  0 < phaseTimeLeft s.
Proof.
  intros Hv Hreach Hrun Hty.
  destruct Hreach as [| e s s' Hreach He Hord Hstep].
  - discriminate Hrun.
  - unfold step in Hstep.
    destruct (handle e s) as [s1 |] eqn:Hh; [| discriminate].
    apply (effects_settle s1 s'); try assumption.
    apply (wellFormed_handle e s s1); try assumption.
    apply (wellFormed_reachable p0 s); assumption.
Qed.

Lemma getVisualState_defined (s : State) (phases : list BreathPhase.t)
      (ph : BreathPhase.t) :
  Preset.phases (activePreset s) = Some phases ->
  nth_error phases (currentPhaseIndex s) = Some ph ->
  exists v, getVisualState s = Some v.
Proof.
  intros Hph Hnth. unfold getVisualState. rewrite Hph, Hnth. cbv zeta.
  assert (Hlt : (currentPhaseIndex s < List.length phases)%nat)
    by (apply nth_error_Some; congruence).
  destruct (nth_error phases
              (if Nat.eqb (currentPhaseIndex s) 0
               then (List.length phases - 1)%nat
               else (currentPhaseIndex s - 1)%nat)) as [prevPhase |] eqn:Hprev.
  - eexists. reflexivity.
  - apply nth_error_None in Hprev.
    destruct (Nat.eqb (currentPhaseIndex s) 0); lia.
Qed.

(** ** What a settled session shows *)

(** X2. In every state a session reaches by commands and ordered frames,
    the circle is given a scale: it lies between 1 and 1.8, and it is the
    resting scale 1 whenever the session is not running. *)
Theorem settled_scale_in_range (p0 : Preset.t) (s : State) :
  validPreset p0 = true ->
  reachable orderedFrame p0 s ->
  exists v,
    dynamicVisual s = Some v /\
    1 <= targetScale v <= 1.8 /\
    (appState s <> Running -> targetScale v = 1).
Proof.
  intros Hv Hreach.
  pose proof (wellFormed_reachable p0 s Hv Hreach) as Hwf.
  unfold dynamicVisual.
  destruct (Preset.type (activePreset s)) eqn:Hty.
  - destruct (appState s) eqn:Hrun;
      try (eexists; split; [reflexivity |]; simpl; split; [lra | reflexivity]).
    destruct Hwf as [Hval Hcase]. pose proof (conj Hval Hcase) as Hwf.
    rewrite Hty in Hcase. destruct Hcase as (phases & ph & Hph & Hnth & Hle).
    destruct (getVisualState_defined s phases ph Hph Hnth) as [v Hvis].
    exists v. split; [exact Hvis |]. split; [| intro H; contradiction].
    apply (visual_scale_in_range s phases ph v); try assumption.
    + apply (wellFormed_duration_positive s phases (currentPhaseIndex s) ph);
        assumption.
    + split; [| exact Hle].
      apply Qlt_le_weak, (reachable_settled p0 s); assumption.
  - destruct (appState s);
      eexists; (split; [reflexivity |]); simpl; (split; [lra | reflexivity]).
Qed.

Lemma settled_scale_in_range_witness :
  exists v,
    dynamicVisual (mkState boxBreathing Running 1 4 0 0 None) = Some v /\
    1 <= targetScale v <= 1.8 /\
    (Running <> Running -> targetScale v = 1).
Proof.
  apply (settled_scale_in_range boxBreathing
           (mkState boxBreathing Running 1 4 0 0 None)).
  - reflexivity.
  - apply (reach_step orderedFrame boxBreathing Toggle (initialState boxBreathing)).
    + apply reach_init.
    + exact I.
    + exact I.
    + reflexivity.
Defined.

Lemma Qceiling_positive (x : Q) : 0 < x -> (1 <= Qceiling x)%Z.
Proof.
  intro Hx. pose proof (Qle_ceiling x) as H.
  assert (Hc : 0 < inject_Z (Qceiling x)) by lra.
  change 0 with (inject_Z 0) in Hc. rewrite <- Zlt_Qlt in Hc. lia.
Qed.

Lemma Qceiling_zero_iff (x : Q) : 0 <= x -> (Qceiling x = 0%Z <-> x == 0).
Proof.
  intro Hx. split.
  - intro Hc. pose proof (Qle_ceiling x) as H. rewrite Hc in H.
    change (inject_Z 0) with 0 in H. lra.
  - intro Hz. rewrite (Qceiling_comp x 0 Hz). reflexivity.
Qed.

(** X3. While a breathing preset runs, in every state reached by commands
    and ordered frames, the count shown inside the circle is at least 1
    and at most the duration of the current phase rounded up: the count
    never shows 0 and never exceeds the phase. *)
Theorem phaseCount_bounds (p0 : Preset.t) (s : State) :
  validPreset p0 = true ->
  reachable orderedFrame p0 s ->
  appState s = Running ->
  Preset.type (activePreset s) = breathing ->
  exists phases ph,
    Preset.phases (activePreset s) = Some phases /\
    nth_error phases (currentPhaseIndex s) = Some ph /\
    (1 <= phaseCount s <= Qceiling (BreathPhase.duration ph))%Z.
Proof.
  intros Hv Hreach Hrun Hty.
  pose proof (wellFormed_reachable p0 s Hv Hreach) as [_ Hcase].
  rewrite Hty in Hcase. destruct Hcase as (phases & ph & Hph & Hnth & Hle).
  exists phases, ph. split; [exact Hph |]. split; [exact Hnth |].
  pose proof (reachable_settled p0 s Hv Hreach Hrun Hty) as Hpos.
  apply Qceiling_positive in Hpos.
  apply Qceiling_resp_le in Hle.
  unfold phaseCount. lia.
Qed.

Lemma phaseCount_bounds_witness :
  let s := mkState boxBreathing Running 1 4 0 0 None in
  exists phases ph,
    Preset.phases (activePreset s) = Some phases /\
    nth_error phases (currentPhaseIndex s) = Some ph /\
    (1 <= phaseCount s <= Qceiling (BreathPhase.duration ph))%Z.
Proof.
  intro s. apply (phaseCount_bounds boxBreathing s).
  - reflexivity.
  - apply (reach_step orderedFrame boxBreathing Toggle (initialState boxBreathing)).
    + apply reach_init.
    + exact I.
    + exact I.
    + reflexivity.
  - reflexivity.
  - reflexivity.
Defined.

(** X4. For a timer of at most 99 minutes, in every state reached by
    commands and ordered frames, the clock reads 00:00 exactly when no
    time remains. *)
Theorem timerDisplay_zero (p0 : Preset.t) (s : State) (d : Q) :
  validPreset p0 = true ->
  reachable orderedFrame p0 s ->
  Preset.type (activePreset s) = timer ->
  Preset.defaultDuration (activePreset s) = Some d ->
  d <= 99 ->
  (timerDisplay s = "00:00"%string <-> timerDuration s == 0).
Proof.
  intros Hv Hreach Hty Hd Hmax.
  pose proof (wellFormed_reachable p0 s Hv Hreach) as [_ Hcase].
  rewrite Hty in Hcase. destruct Hcase as (d' & Hd' & Hlo & Hhi).
  assert (d' = d) by congruence. subst d'.
  assert (Hc0 : (0 <= Qceiling (timerDuration s))%Z).
  { apply Qceiling_resp_le in Hlo. exact Hlo. }
  assert (Hc1 : (Qceiling (timerDuration s) < 6000)%Z).
  { assert (Hle : timerDuration s <= inject_Z 5940).
    { change (inject_Z 5940) with (99 * 60). nra. }
    apply Qceiling_resp_le in Hle. rewrite Qceiling_Z in Hle. lia. }
  unfold timerDisplay. split.
  - intro Hshow.
    apply (Qceiling_zero_iff _ Hlo).
    pose proof (formatTime_readClock (Qceiling (timerDuration s)) (conj Hc0 Hc1))
      as Hread.
    rewrite Hshow in Hread.
    change (readClock "00:00") with (Some 0%Z) in Hread.
    congruence.
  - intro Hz. apply (Qceiling_zero_iff _ Hlo) in Hz. rewrite Hz. reflexivity.
Qed.

Lemma timerDisplay_zero_witness :
  timerDisplay (initialState oneMinute) = "00:00"%string
  <-> timerDuration (initialState oneMinute) == 0.
Proof.
  apply (timerDisplay_zero oneMinute (initialState oneMinute) 1).
  - reflexivity.
  - apply reach_init.
  - reflexivity.
  - reflexivity.
  - unfold Qle. simpl. lia.
Defined.

(** ** The effects come to rest *)

Lemma aboveThreshold_nth (p : Preset.t) (phases : list BreathPhase.t)
      (i : nat) (ph : BreathPhase.t) :
  aboveThreshold p = true ->
  Preset.phases p = Some phases ->
  nth_error phases i = Some ph ->
  0.05 < BreathPhase.duration ph.
Proof.
  unfold aboveThreshold. intros Hall Hph Hnth. rewrite Hph in Hall.
  rewrite forallb_forall in Hall.
  specialize (Hall ph (nth_error_In _ _ Hnth)).
  apply negb_true_iff in Hall.
  assert (~ BreathPhase.duration ph <= 0.05)
    by (rewrite <- Qle_bool_iff, Hall; discriminate).
  lra.
Qed.

Lemma setPreviousTimeRef_same (s : State) :
  previousTimeRef s = None -> setPreviousTimeRef None s = s.
Proof. destruct s; simpl. intros ->. reflexivity. Qed.

(** X5. When every phase of the active preset lasts longer than 0.05
    seconds, the state a step leaves is at rest: running the effects once
    more (a re-render) changes nothing, so the phase switch does not fire
    twice for one frame. *)
Theorem effects_at_rest (e : Event) (s s' : State) :
  step e s = Some s' ->
  aboveThreshold (activePreset s') = true ->
  step Render s' = Some s'.
Proof.
  intros Hstep Habove. unfold step in Hstep.
  destruct (handle e s) as [s1 |]; [| discriminate].
  unfold step, handle.
  unfold effects in Hstep.
  destruct (phaseSwitchEffect s1) as [s2 |] eqn:Hsw; [| discriminate].
  injection Hstep as <-.
  destruct (AppState_eqb (appState s2) Running) eqn:Hrun.
  - apply AppState_eqb_eq in Hrun.
    rewrite startStopEffect_running in * by exact Hrun.
    assert (Hidle : phaseSwitchEffect s2 = Some s2).
    { unfold phaseSwitchEffect in Hsw.
      destruct (Preset.type (activePreset s1)) eqn:Hty;
        [| injection Hsw as <-; apply phaseSwitchEffect_timer; exact Hty].
      destruct (Preset.phases (activePreset s1)) as [phases |] eqn:Hph.
      2:{ injection Hsw as <-. unfold phaseSwitchEffect. rewrite Hty, Hph.
          reflexivity. }
      destruct (appState s1) eqn:Hrun1;
        try (injection Hsw as <-; congruence).
      destruct (Qle_bool (phaseTimeLeft s1) 0.05) eqn:Hcmp.
      - destruct (jsMod _ _) as [nextIndex |]; [| discriminate].
        destruct (nth_error phases nextIndex) as [ph |] eqn:Hnth; [| discriminate].
        injection Hsw as <-. apply phase_switch_idle. simpl.
        apply (aboveThreshold_nth (activePreset s1) phases nextIndex ph);
          assumption.
      - injection Hsw as <-. apply phase_switch_idle.
        assert (~ phaseTimeLeft s1 <= 0.05)
          by (rewrite <- Qle_bool_iff, Hcmp; discriminate).
        lra. }
    unfold effects. rewrite Hidle. simpl.
    rewrite startStopEffect_running by exact Hrun. reflexivity.
  - assert (Hnot : appState s2 <> Running).
    { intro H. apply AppState_eqb_eq in H. congruence. }
    rewrite startStopEffect_not_running by exact Hnot.
    rewrite effects_not_running by exact Hnot.
    reflexivity.
Qed.

Lemma effects_at_rest_witness :
  let s := mkState boxBreathing Running 0 0.04 3.96 0 (Some 3960) in
  let s' := mkState boxBreathing Running 1 4 3.96 0 (Some 3960) in
  step Render s = Some s' /\ step Render s' = Some s'.
Proof.
  intros s s'. split; [reflexivity |].
  apply (effects_at_rest Render s s'); reflexivity.
Defined.

(** Without that bound the effects do not come to rest: with phases of a
    hundredth of a second every re-render switches the phase again. *)
Example effects_restless :
  let p := breathingPreset "flutter"
             [ phase Inhale "In" 0.01; phase Exhale "Out" 0.01 ] in
  let s := mkState p Running 0 0.01 0 0 None in
  step Render s = Some (mkState p Running 1 0.01 0 0 None) /\
  run [Render; Render] s = Some s.
Proof. split; reflexivity. Qed.

(** ** The first session after mounting *)

Lemma phaseSwitchEffect_fires (s : State) (phases : list BreathPhase.t) :
  Preset.type (activePreset s) = breathing ->
  Preset.phases (activePreset s) = Some phases ->
  phases <> [] ->
  appState s = Running ->
  phaseTimeLeft s <= 0.05 ->
  exists ph,
    nth_error phases ((currentPhaseIndex s + 1) mod List.length phases) = Some ph /\
    phaseSwitchEffect s
    = Some (setPhaseTimeLeft (BreathPhase.duration ph)
              (setCurrentPhaseIndex
                 ((currentPhaseIndex s + 1) mod List.length phases) s)).
Proof.
  intros Hty Hph Hne Hrun Hle.
  assert (Hlen : List.length phases <> 0%nat)
    by (destruct phases; [contradiction | discriminate]).
  destruct (jsMod_some (currentPhaseIndex s + 1) _ Hlen) as [Hmod Hlt].
  destruct (nth_error_in_range phases _ Hlt) as [ph Hnth].
  exists ph. split; [exact Hnth |].
  unfold phaseSwitchEffect. rewrite Hty, Hph, Hrun.
  apply Qle_bool_iff in Hle. rewrite Hle, Hmod, Hnth. reflexivity.
Qed.

(** X6. The component mounts with [phaseTimeLeft = 0] and does not call
    [initPreset]: starting the very first session of a breathing preset
    switches at once to the phase of index [1 mod length], at its full
    duration.  After a reset the session starts at the first phase. *)
Theorem first_session_skips_first_phase (p0 : Preset.t)
        (ph0 : BreathPhase.t) (rest : list BreathPhase.t) :
  Preset.type p0 = breathing ->
  Preset.phases p0 = Some (ph0 :: rest) ->
  0.05 < BreathPhase.duration ph0 ->
  exists s1 ph1 s0,
    step Toggle (initialState p0) = Some s1 /\
    appState s1 = Running /\
    currentPhaseIndex s1 = (1 mod List.length (ph0 :: rest))%nat /\
    nth_error (ph0 :: rest) (currentPhaseIndex s1) = Some ph1 /\
    phaseTimeLeft s1 = BreathPhase.duration ph1 /\
    run [Reset; Toggle] (initialState p0) = Some s0 /\
    appState s0 = Running /\
    currentPhaseIndex s0 = 0%nat /\
    phaseTimeLeft s0 = BreathPhase.duration ph0.
Proof.
  intros Hty Hph Hdur.
  set (started := setAppState Running (initialState p0)).
  destruct (phaseSwitchEffect_fires started (ph0 :: rest)) as (ph1 & Hnth & Hsw);
    try (simpl; assumption); try reflexivity; try discriminate.
  change (currentPhaseIndex started + 1)%nat with 1%nat in Hnth, Hsw.
  eexists. exists ph1. eexists.
  split.
  { unfold step, handle, effects.
    change (toggleTimer (initialState p0)) with started.
    rewrite Hsw. simpl. reflexivity. }
  split; [reflexivity |]. split; [reflexivity |].
  split; [exact Hnth |]. split; [reflexivity |].
  split.
  { cbn [run]. unfold step at 1. cbn [handle]. unfold reset, initPreset.
    cbn [initialState activePreset]. rewrite Hty, Hph.
    cbn [nth_error]. unfold effects at 1.
    rewrite phaseSwitchEffect_not_running by (simpl; discriminate).
    cbn [option_map]. unfold startStopEffect at 1. cbn.
    unfold step, handle, toggleTimer, effects. cbn.
    rewrite phase_switch_idle by exact Hdur. reflexivity. }
  repeat split.
Qed.

Lemma first_session_skips_first_phase_witness :
  exists s1 ph1 s0,
    step Toggle (initialState boxBreathing) = Some s1 /\
    appState s1 = Running /\
    currentPhaseIndex s1 = (1 mod 4)%nat /\
    nth_error [ phase Inhale "Inhale" 4; phase Hold "Hold" 4;
                phase Exhale "Exhale" 4; phase Hold "Hold" 4 ]
              (currentPhaseIndex s1) = Some ph1 /\
    phaseTimeLeft s1 = BreathPhase.duration ph1 /\
    run [Reset; Toggle] (initialState boxBreathing) = Some s0 /\
    appState s0 = Running /\
    currentPhaseIndex s0 = 0%nat /\
    phaseTimeLeft s0 = 4.
Proof.
  apply (first_session_skips_first_phase boxBreathing
           (phase Inhale "Inhale" 4)
           [ phase Hold "Hold" 4; phase Exhale "Exhale" 4; phase Hold "Hold" 4 ]).
  - reflexivity.
  - reflexivity.
  - simpl. lra.
Defined.

(** ** Frames of a running breathing session *)

Section BreathingFrame.

Variables (s : State) (phases : list BreathPhase.t) (time previous : Q).

Hypothesis Hty : Preset.type (activePreset s) = breathing.
Hypothesis Hph : Preset.phases (activePreset s) = Some phases.
Hypothesis Hne : phases <> [].
Hypothesis Hrun : appState s = Running.
Hypothesis Hprev : previousTimeRef s = Some previous.

Let deltaTime : Q := (time - previous) / 1000.





End BreathingFrame.



(** ** Runs of frames *)








(** ** The timer's account of time *)




(** A one-minute timer, half way: selected, started, frames at 0 and 30 s. *)
Lemma oneMinute_half_way :
  reachable orderedFrame boxBreathing
    (mkState oneMinute Running 0 0
             (0 + (30000 - 0) / 1000) (1 * 60 - (30000 - 0) / 1000)
             (Some 30000)).
Proof.
  eapply (reach_step _ _ (Tick 30000));
    [ eapply (reach_step _ _ (Tick 0));
      [ eapply (reach_step _ _ Toggle);
        [ eapply (reach_step _ _ (Select oneMinute));
          [ apply reach_init | .. ] | .. ] | .. ] | .. ];
    first [ exact I | reflexivity | (vm_compute; reflexivity)
          | (vm_compute; discriminate) ].
Qed.


(** X11. With ordered frames time only moves forward: a frame never
    decreases the elapsed time and never increases the timer's remaining
    time. *)
Theorem ordered_frame_monotone (p0 : Preset.t) (s s' : State) (time : Q) :
  validPreset p0 = true ->
  reachable orderedFrame p0 s ->
  orderedFrame (Tick time) s ->
  step (Tick time) s = Some s' ->
  totalSessionTime s <= totalSessionTime s' /\
  timerDuration s' <= timerDuration s.
Proof.
  intros Hv Hreach Hord Hstep.
  pose proof (wellFormed_reachable p0 s Hv Hreach) as [_ Hcase].
  unfold step, handle in Hstep. apply effects_frame in Hstep.
  destruct Hstep as (_ & _ & -> & -> & _).
  unfold orderedFrame in Hord. unfold animate.
  destruct (appState s); simpl; try (split; lra).
  destruct (previousTimeRef s) as [previous |]; simpl; [| split; lra].
  apply deltaTime_nonneg in Hord.
  destruct (Preset.type (activePreset s)); simpl.
  - destruct (Preset.phases (activePreset s)); simpl; split; lra.
  - destruct Hcase as (d & _ & Hlo & _).
    destruct (Qle_bool (timerDuration s - (time - previous) / 1000) 0);
      simpl; split; lra.
Qed.

Lemma ordered_frame_monotone_witness :
  let s := mkState oneMinute Running 0 0
                   (0 + (30000 - 0) / 1000) (1 * 60 - (30000 - 0) / 1000)
                   (Some 30000) in
  exists s',
    step (Tick 45000) s = Some s' /\
    totalSessionTime s <= totalSessionTime s' /\
    timerDuration s' <= timerDuration s.
Proof.
  intro s. eexists. split; [vm_compute; reflexivity |].
  apply (ordered_frame_monotone boxBreathing s _ 45000).
  - reflexivity.
  - exact oneMinute_half_way.
  - vm_compute. discriminate.
  - vm_compute. reflexivity.
Defined.

(** ** What the commands never do *)

(** X12. Only reset and the selection of a preset take a session back to
    Idle, and only the selection changes the active preset: no frame, no
    press of the start/pause button and no effect does either. *)
Theorem only_reset_and_select_rewind (e : Event) (s s' : State) :
  step e s = Some s' ->
  (appState s' = Idle ->
   appState s = Idle \/ e = Reset \/ exists preset, e = Select preset) /\
  (activePreset s' <> activePreset s -> exists preset, e = Select preset).
Proof.
  intro Hstep. unfold step in Hstep.
  destruct (handle e s) as [s1 |] eqn:Hh; [| discriminate].
  apply effects_frame in Hstep. destruct Hstep as (Hp & Ha & _).
  rewrite Hp, Ha.
  destruct e as [time | | | preset |]; simpl in Hh.
  - injection Hh as <-. rewrite animate_activePreset. split.
    + intro Hidle. left.
      destruct (AppState_eqb (appState s) Running) eqn:Hrun.
      * apply AppState_eqb_eq in Hrun. exfalso.
        revert Hidle. unfold animate. rewrite Hrun. simpl.
        destruct (previousTimeRef s); simpl; [| congruence].
        destruct (Preset.type (activePreset s)); simpl.
        -- destruct (Preset.phases (activePreset s)); simpl; congruence.
        -- destruct (Qle_bool _ 0); simpl; congruence.
      * rewrite animate_not_running in Hidle; [exact Hidle |].
        intro H. apply AppState_eqb_eq in H. congruence.
    + intro H. contradiction.
  - injection Hh as <-. split.
    + intro Hidle. destruct (toggleTimer_appState s); congruence.
    + unfold toggleTimer.
      destruct (AppState_eqb (appState s) Running); simpl; intro H; contradiction.
  - split; [intros _; right; left; reflexivity |].
    apply initPreset_appState in Hh. destruct Hh as [_ Hact].
    intro H. contradiction.
  - split; intros _; [right; right |]; exists preset; reflexivity.
  - injection Hh as <-. split; [intro H; left; exact H | intro H; contradiction].
Qed.

Lemma only_reset_and_select_rewind_witness :
  let s := mkState boxBreathing Paused 2 1.5 10.5 0 None in
  let s' := mkState boxBreathing Idle 0 4 0 0 None in
  step Reset s = Some s' /\
  (appState s' = Idle ->
   appState s = Idle \/ Reset = Reset \/ exists preset, Reset = Select preset) /\
  (activePreset s' <> activePreset s -> exists preset, Reset = Select preset).
Proof.
  intros s s'. split; [reflexivity |].
  apply (only_reset_and_select_rewind Reset s s'). reflexivity.
Defined.

(** ** A finished timer *)

(** X13. Starting a timer that has run out does not count down anew: the
    first frame records the baseline, the second completes the session
    again with no time remaining, while the elapsed time keeps growing.
    Only reset or a selection gives the timer its duration back. *)
Theorem finished_timer_finishes_again (s : State) (t1 t2 : Q) :
  appState s = Completed ->
  Preset.type (activePreset s) = timer ->
  timerDuration s <= 0 ->
  previousTimeRef s = None ->
  t1 <= t2 ->
  exists s',
    run [Toggle; Tick t1; Tick t2] s = Some s' /\
    appState s' = Completed /\
    timerDuration s' = 0 /\
    totalSessionTime s' = totalSessionTime s + (t2 - t1) / 1000 /\
    previousTimeRef s' = None.
Proof.
  intros Hdone Hty Htd Hprev Hord.
  apply deltaTime_nonneg in Hord.
  assert (Hcmp : Qle_bool (timerDuration s - (t2 - t1) / 1000) 0 = true)
    by (apply Qle_bool_iff; lra).
  destruct s as [p a i ptl tot td prev]. simpl in *. subst a prev.
  unfold run, step, handle, toggleTimer. simpl.
  unfold effects at 1. rewrite phaseSwitchEffect_timer by exact Hty. simpl.
  unfold animate at 1. simpl.
  unfold effects at 1. rewrite phaseSwitchEffect_timer by exact Hty. simpl.
  unfold animate. simpl. rewrite Hty. simpl. rewrite Hcmp. simpl.
  rewrite effects_not_running by (simpl; discriminate).
  eexists. split; [reflexivity |]. repeat split.
Qed.

Lemma finished_timer_finishes_again_witness :
  let s := mkState oneMinute Completed 0 0 61 0 None in
  exists s',
    run [Toggle; Tick 70000; Tick 70016] s = Some s' /\
    appState s' = Completed /\
    timerDuration s' = 0 /\
    totalSessionTime s' = 61 + (70016 - 70000) / 1000 /\
    previousTimeRef s' = None.
Proof.
  intro s. apply (finished_timer_finishes_again s 70000 70016).
  - reflexivity.
  - reflexivity.
  - simpl. lra.
  - reflexivity.
  - lra.
Defined.

(** ** No handler throws *)

Lemma shape_initPreset (p : Preset.t) (s s1 : State) :
  validPreset p = true -> initPreset p s = Some s1 ->
  validPreset (activePreset s1) = true /\
  (Preset.type (activePreset s1) = breathing ->
   exists phases ph,
     Preset.phases (activePreset s1) = Some phases /\
     nth_error phases (currentPhaseIndex s1) = Some ph).
Proof.
  intros Hv Hinit.
  destruct (initPreset_valid p s Hv) as (s2 & Hs2 & Hact & _ & _ & Hcase).
  rewrite Hinit in Hs2. injection Hs2 as <-.
  rewrite Hact. split; [exact Hv |].
  intro Hty. rewrite Hty in Hcase.
  destruct Hcase as (ph & phs & Hph & Hi & _).
  exists (ph :: phs), ph. rewrite Hi. split; [exact Hph | reflexivity].
Qed.

Lemma shape_reachable (admits : Event -> State -> Prop) (p0 : Preset.t)
      (s : State) :
  validPreset p0 = true ->
  reachable admits p0 s ->
  validPreset (activePreset s) = true /\
  (Preset.type (activePreset s) = breathing ->
   exists phases ph,
     Preset.phases (activePreset s) = Some phases /\
     nth_error phases (currentPhaseIndex s) = Some ph).
Proof.
  intros Hv Hreach.
  induction Hreach as [| e s s' _ IH He _ Hstep].
  - split; [exact Hv |]. intro Hty. simpl in Hty.
    destruct (validPreset_breathing p0 Hv Hty) as (ph & phs & Hph & _).
    exists (ph :: phs), ph. split; [exact Hph | reflexivity].
  - destruct IH as [Hval Hidx].
    unfold step in Hstep.
    destruct (handle e s) as [s1 |] eqn:Hh; [| discriminate].
    assert (H1 : validPreset (activePreset s1) = true /\
                 (Preset.type (activePreset s1) = breathing ->
                  exists phases ph,
                    Preset.phases (activePreset s1) = Some phases /\
                    nth_error phases (currentPhaseIndex s1) = Some ph)).
    { destruct e as [time | | | preset |]; simpl in Hh.
      - injection Hh as <-. rewrite animate_activePreset.
        split; [exact Hval |]. intro Hty.
        destruct (Hidx Hty) as (phases & ph & Hph & Hnth).
        exists phases, ph. split; [exact Hph |].
        assert (Hi : currentPhaseIndex (animate time s) = currentPhaseIndex s).
        { unfold animate.
          destruct (appState s); simpl; try reflexivity.
          destruct (previousTimeRef s); simpl; try reflexivity.
          rewrite Hty, Hph. reflexivity. }
        rewrite Hi. exact Hnth.
      - injection Hh as <-. unfold toggleTimer.
        destruct (AppState_eqb (appState s) Running); split; assumption.
      - apply (shape_initPreset (activePreset s) s s1); assumption.
      - apply (shape_initPreset preset s s1); assumption.
      - injection Hh as <-. split; assumption. }
    clear Hval Hidx. destruct H1 as [Hval Hidx].
    unfold effects in Hstep.
    destruct (phaseSwitchEffect s1) as [s2 |] eqn:Hsw; [| discriminate].
    injection Hstep as <-.
    assert (H2 : validPreset (activePreset s2) = true /\
                 (Preset.type (activePreset s2) = breathing ->
                  exists phases ph,
                    Preset.phases (activePreset s2) = Some phases /\
                    nth_error phases (currentPhaseIndex s2) = Some ph)).
    { unfold phaseSwitchEffect in Hsw.
      destruct (Preset.type (activePreset s1)) eqn:Hty;
        [| injection Hsw as <-; split; [exact Hval | rewrite Hty; discriminate]].
      destruct (Hidx eq_refl) as (phases & ph & Hph & Hnth).
      rewrite Hph in Hsw.
      assert (Hkeep : validPreset (activePreset s1) = true /\
                      (Preset.type (activePreset s1) = breathing ->
                       exists phases ph,
                         Preset.phases (activePreset s1) = Some phases /\
                         nth_error phases (currentPhaseIndex s1) = Some ph)).
      { split; [exact Hval |]. intros _. exists phases, ph. split; assumption. }
      destruct (appState s1); try (injection Hsw as <-; exact Hkeep).
      destruct (Qle_bool (phaseTimeLeft s1) 0.05);
        [| injection Hsw as <-; exact Hkeep].
      destruct (jsMod _ _) as [nextIndex |]; [| discriminate].
      destruct (nth_error phases nextIndex) as [ph' |] eqn:Hnth'; [| discriminate].
      injection Hsw as <-. simpl. split; [exact Hval |].
      intros _. exists phases, ph'. split; assumption. }
    unfold startStopEffect.
    destruct (AppState_eqb (appState s2) Running); exact H2.
Qed.

Lemma shape_effects_defined (s : State) :
  validPreset (activePreset s) = true ->
  exists s', effects s = Some s'.
Proof.
  intro Hv. unfold effects.
  assert (H : exists s2, phaseSwitchEffect s = Some s2).
  { unfold phaseSwitchEffect.
    destruct (Preset.type (activePreset s)) eqn:Hty; [| eexists; reflexivity].
    destruct (validPreset_breathing _ Hv Hty) as (ph & phs & Hph & _).
    rewrite Hph.
    destruct (appState s); try (eexists; reflexivity).
    destruct (Qle_bool (phaseTimeLeft s) 0.05); [| eexists; reflexivity].
    destruct (jsMod_some (currentPhaseIndex s + 1) (List.length (ph :: phs)))
      as [Hmod Hlt]; [discriminate |].
    rewrite Hmod.
    destruct (nth_error_in_range (ph :: phs) _ Hlt) as [x Hx].
    rewrite Hx. eexists; reflexivity. }
  destruct H as [s2 ->]. eexists; reflexivity.
Qed.

Lemma shape_dynamicVisual_defined (s : State) :
  (Preset.type (activePreset s) = breathing ->
   exists phases ph,
     Preset.phases (activePreset s) = Some phases /\
     nth_error phases (currentPhaseIndex s) = Some ph) ->
  exists v, dynamicVisual s = Some v.
Proof.
  intro Hidx. unfold dynamicVisual.
  destruct (Preset.type (activePreset s)).
  - destruct (Hidx eq_refl) as (phases & ph & Hph & Hnth).
    destruct (appState s); try (eexists; reflexivity).
    apply (getVisualState_defined s phases ph); assumption.
  - destruct (appState s); eexists; reflexivity.
Qed.

(** X14. In a session built from presets of the catalog no handler and no
    effect reads a property of [undefined], whatever frames arrive and in
    whatever order: every event yields a next state, and every render,
    the one between handler and effects included, yields a visual
    state. *)
Theorem session_never_throws (p0 : Preset.t) (s : State) (e : Event) :
  validPreset p0 = true ->
  reachable anyFrame p0 s ->
  validEvent e ->
  exists s1 s' v1 v',
    handle e s = Some s1 /\
    dynamicVisual s1 = Some v1 /\
    step e s = Some s' /\
    dynamicVisual s' = Some v'.
Proof.
  intros Hv Hreach He.
  destruct (shape_reachable anyFrame p0 s Hv Hreach) as [Hval Hidx].
  assert (Hh : exists s1, handle e s = Some s1).
  { destruct e as [time | | | preset |]; simpl; try (eexists; reflexivity).
    - destruct (initPreset_valid (activePreset s) s Hval) as (s1 & H & _).
      exists s1. exact H.
    - destruct (initPreset_valid preset s He) as (s1 & H & _).
      exists s1. exact H. }
  destruct Hh as [s1 Hh].
  assert (Hstep : exists s', step e s = Some s').
  { unfold step. rewrite Hh. apply shape_effects_defined.
    destruct e as [time | | | preset |]; simpl in Hh.
    - injection Hh as <-. rewrite animate_activePreset. exact Hval.
    - injection Hh as <-. unfold toggleTimer.
      destruct (AppState_eqb (appState s) Running); exact Hval.
    - apply (shape_initPreset (activePreset s) s s1); assumption.
    - apply (shape_initPreset preset s s1); assumption.
    - injection Hh as <-. exact Hval. }
  destruct Hstep as [s' Hstep].
  assert (Hreach' : reachable anyFrame p0 s')
    by (apply (reach_step anyFrame p0 e s s'); [assumption | assumption | exact I | assumption]).
  destruct (shape_reachable anyFrame p0 s' Hv Hreach') as [_ Hidx'].
  destruct (shape_dynamicVisual_defined s' Hidx') as [v' Hv'].
  assert (Hidx1 : Preset.type (activePreset s1) = breathing ->
                  exists phases ph,
                    Preset.phases (activePreset s1) = Some phases /\
                    nth_error phases (currentPhaseIndex s1) = Some ph).
  { destruct e as [time | | | preset |]; simpl in Hh.
    - injection Hh as <-. rewrite animate_activePreset. intro Hty.
      destruct (Hidx Hty) as (phases & ph & Hph & Hnth).
      exists phases, ph. split; [exact Hph |].
      assert (Hi : currentPhaseIndex (animate time s) = currentPhaseIndex s).
      { unfold animate.
        destruct (appState s); simpl; try reflexivity.
        destruct (previousTimeRef s); simpl; try reflexivity.
        rewrite Hty, Hph. reflexivity. }
      rewrite Hi. exact Hnth.
    - injection Hh as <-. unfold toggleTimer.
      destruct (AppState_eqb (appState s) Running); exact Hidx.
    - apply (shape_initPreset (activePreset s) s s1); assumption.
    - apply (shape_initPreset preset s s1); assumption.
    - injection Hh as <-. exact Hidx. }
  destruct (shape_dynamicVisual_defined s1 Hidx1) as [v1 Hv1].
  exists s1, s', v1, v'. repeat split; assumption.
Qed.

Lemma session_never_throws_witness :
  exists s1 s' v1 v',
    handle (Tick 0) (initialState boxBreathing) = Some s1 /\
    dynamicVisual s1 = Some v1 /\
    step (Tick 0) (initialState boxBreathing) = Some s' /\
    dynamicVisual s' = Some v'.
Proof.
  apply (session_never_throws boxBreathing (initialState boxBreathing) (Tick 0)).
  - reflexivity.
  - apply reach_init.
  - exact I.
Defined.

(** With a preset outside the catalog the handlers do throw: an empty
    list of phases cannot be selected, and a session mounted with it
    throws when started. *)
Example empty_phases_throw :
  let p := breathingPreset "void" [] in
  initPreset p (initialState boxBreathing) = None /\
  step Toggle (initialState p) = None.
Proof. split; reflexivity. Qed.
